(** * Verification of the data validation engine

    A shallow embedding of [src/validation_result.py] and of the checking
    passes of [src/data_validator.py] ([DataValidator]), with the properties
    the specification states about them.

    Scope of the model.
    - Text is ASCII text, a [string] of bytes; the predicates on characters
      are the ASCII restriction of Python's (a byte above 127 is neither a
      digit nor white space).  [int] and [float] skip the white space of C
      around a numeral, which is less than [str.strip] removes, and [int]
      refuses a numeral of more digits than the interpreter's limit, taken
      at its default of 4300.
    - A cell value is one of the objects the validator branches on with
      [isinstance]: the built-in scalars, the numpy scalars (integers,
      floating and complex numbers, booleans) and any other object.
      Floating-point numbers are IEEE values ([spec_float]).
    - A data frame is what pandas hands over after loading: named columns
      with a dtype, unique labels and the default row index [0 .. n-1].
      The rules are typed as the source annotates them: a list of names and
      a dict from names to tags, each of the two keys possibly absent.
    - What the interpreter leaves open (the text of a float, the iteration
      order of a set) is a parameter, class [PyRuntime]; the file system and
      the pandas readers are a parameter of [validate_file]. *)

From Stdlib Require Import ZArith String Ascii List DecimalString Sorted Lia.
From Stdlib Require Import Floats.SpecFloat.
From stdpp Require Import base decidable option list strings gmap.

Open Scope Z_scope.

(** ** Python text: white space, [str.strip], [str.endswith], [str(int)] *)

Definition py_isspace (c : ascii) : bool :=
  let n := N_of_ascii c in
  ((9 <=? n) && (n <=? 13) || (28 <=? n) && (n <=? 32))%N.

Definition is_digit (c : ascii) : bool :=
  let n := N_of_ascii c in ((48 <=? n) && (n <=? 57))%N.

Definition digit_val (c : ascii) : Z := Z.of_N (N_of_ascii c) - 48.

Fixpoint lstrip (l : list ascii) : list ascii :=
  match l with
  | c :: r => if py_isspace c then lstrip r else l
  | [] => []
  end.

Definition rstrip (l : list ascii) : list ascii := rev (lstrip (rev l)).

Definition strip_chars (l : list ascii) : list ascii := rstrip (lstrip l).

(** [s.strip()] *)
Definition strip (s : string) : string :=
  string_of_list_ascii (strip_chars (list_ascii_of_string s)).

(** [s.endswith(suffix)] *)
Definition endswith (s suffix : string) : bool :=
  let n := String.length s in
  let k := String.length suffix in
  (k <=? n)%nat && String.eqb (substring (n - k) k s) suffix.

(** [str(n)] for an integer *)
Definition str_int (n : Z) : string := NilZero.string_of_int (Z.to_int n).

(** ** [int(s)] and [float(s)] on text

    Both skip white space before and after the numeral, and white space is
    here what C calls so ([Py_ISSPACE]: tab, line feed, vertical tab, form
    feed, carriage return, blank); the separators 28 to 31, which
    [str.strip] removes, make them raise.  [int(s)] then reads an optional
    sign and decimal digits, where single underscores may separate digits,
    and raises when there are more digits than the interpreter allows.
    [None] stands for the [ValueError] the call raises. *)

Definition Py_ISSPACE (c : ascii) : bool :=
  let n := N_of_ascii c in
  ((9 <=? n) && (n <=? 13) || (n =? 32))%N.

Fixpoint skip_space (l : list ascii) : list ascii :=
  match l with
  | c :: r => if Py_ISSPACE c then skip_space r else l
  | [] => []
  end.

(** The text between the leading and the trailing white space. *)
Definition numeral_chars (l : list ascii) : list ascii :=
  rev (skip_space (rev (skip_space l))).

(** [sys.get_int_max_str_digits()], which the program leaves at its default. *)
Definition int_max_str_digits : nat := 4300.

Fixpoint count_digits (l : list ascii) : nat :=
  match l with
  | c :: r => if is_digit c then S (count_digits r) else count_digits r
  | [] => 0
  end.

Fixpoint int_digits (acc : Z) (after_digit : bool) (l : list ascii) : option Z :=
  match l with
  | [] => if after_digit then Some acc else None
  | c :: r =>
      if is_digit c then int_digits (10 * acc + digit_val c) true r
      else if Ascii.eqb c "_" && after_digit then int_digits acc false r
      else None
  end.

Definition py_int_chars (l : list ascii) : option Z :=
  match l with
  | "+"%char :: r => int_digits 0 false r
  | "-"%char :: r => Z.opp <$> int_digits 0 false r
  | _ => int_digits 0 false l
  end.

Definition py_int (s : string) : option Z :=
  let l := numeral_chars (list_ascii_of_string s) in
  if (int_max_str_digits <? count_digits l)%nat then None else py_int_chars l.

(** What a text accepted by [float(s)] denotes, before rounding to a double:
    an infinity, a NaN, or [(-1)^neg * mant * 10^exp10]. *)
Inductive float_literal :=
| LitInf (neg : bool)
| LitNan
| LitDec (neg : bool) (mant : Z) (exp10 : Z).

(** Underscores are allowed only between two digits; they are removed before
    the number is read. *)
Fixpoint drop_underscores (prev : ascii) (l : list ascii) : option (list ascii) :=
  match l with
  | [] => if Ascii.eqb prev "_" then None else Some []
  | c :: r =>
      if Ascii.eqb c "_" then
        if is_digit prev then drop_underscores c r else None
      else if Ascii.eqb prev "_" && negb (is_digit c) then None
      else cons c <$> drop_underscores c r
  end.

(** The longest run of digits at the head of [l]: its value, its length and
    the rest. *)
Fixpoint take_digits (acc : Z) (n : Z) (l : list ascii) : Z * Z * list ascii :=
  match l with
  | c :: r => if is_digit c then take_digits (10 * acc + digit_val c) (n + 1) r
              else (acc, n, l)
  | [] => (acc, n, [])
  end.

Definition lower (c : ascii) : ascii :=
  let n := N_of_ascii c in
  if ((65 <=? n) && (n <=? 90))%N then ascii_of_N (n + 32) else c.

Definition lower_string (l : list ascii) : string :=
  string_of_list_ascii (map lower l).

(** The exponent part: [e] or [E], an optional sign, at least one digit, and
    nothing after it. *)
Definition float_exponent (l : list ascii) : option Z :=
  match l with
  | [] => Some 0
  | c :: r =>
      if Ascii.eqb (lower c) "e" then
        let '(neg, r) :=
          match r with
          | "+"%char :: r' => (false, r')
          | "-"%char :: r' => (true, r')
          | _ => (false, r)
          end in
        match take_digits 0 0 r with
        | (e, n, []) => if 0 <? n then Some (if neg then - e else e) else None
        | _ => None
        end
      else None
  end.

(** [digits] [.] [digits] with at least one digit, then the exponent. *)
Definition float_number (neg : bool) (l : list ascii) : option float_literal :=
  let '(ip, ni, r) := take_digits 0 0 l in
  let '(m, nf, r) :=
    match r with
    | "."%char :: r' => take_digits ip 0 r'
    | _ => (ip, 0, r)
    end in
  if 0 <? ni + nf then
    e ← float_exponent r; Some (LitDec neg m (e - nf))
  else None.

Definition float_unsigned (neg : bool) (l : list ascii) : option float_literal :=
  let w := lower_string l in
  if String.eqb w "inf" || String.eqb w "infinity" then Some (LitInf neg)
  else if String.eqb w "nan" then Some LitNan
  else float_number neg l.

Definition py_float_chars (l : list ascii) : option float_literal :=
  l ← drop_underscores "000" l;
  match l with
  | "+"%char :: r => float_unsigned false r
  | "-"%char :: r => float_unsigned true r
  | _ => float_unsigned false l
  end.

Definition py_float (s : string) : option float_literal :=
  py_float_chars (numeral_chars (list_ascii_of_string s)).

(** ** Floating-point values *)

Definition is_nan (x : spec_float) : bool :=
  match x with S754_nan => true | _ => false end.

(** [x.is_integer()]: finite and without fractional part. *)
Definition is_integer (x : spec_float) : bool :=
  match x with
  | S754_zero _ => true
  | S754_finite _ m e =>
      if 0 <=? e then true else Z.pos m mod 2 ^ (- e) =? 0
  | S754_infinity _ | S754_nan => false
  end.

(** ** Cell values

    The scalars pandas and numpy put into cells.  An instance of a class
    that the program itself does not name and that derives from [int],
    [float] or [str] (an enumeration member, [np.str_]) is no cell value
    here. *)

Inductive PyValue :=
| PyNone
| PyBool (b : bool)                          (* bool, a subclass of int *)
| PyInt (n : Z)                              (* int *)
| PyFloat (x : spec_float)                   (* float *)
| PyStr (s : string)                         (* str *)
| NpBool (b : bool)                          (* np.bool_ *)
| NpInteger (cls : string) (n : Z)           (* a subclass of np.integer *)
| NpFloating (cls : string) (x : spec_float) (* a subclass of np.floating *)
| NpComplexfloating (cls : string) (re im : spec_float) (text : string)
    (* a subclass of np.complexfloating: its two parts and its str() *)
| PyObject (cls : string) (text : string).   (* any other object, with its str() *)

(** [type(value).__name__] *)
Definition type_name (v : PyValue) : string :=
  match v with
  | PyNone => "NoneType"
  | PyBool _ => "bool"
  | PyInt _ => "int"
  | PyFloat _ => "float"
  | PyStr _ => "str"
  | NpBool _ => "bool_"
  | NpInteger cls _ => cls
  | NpFloating cls _ => cls
  | NpComplexfloating cls _ _ _ => cls
  | PyObject cls _ => cls
  end.

(** The classes [_check_data_type] names in its [isinstance] tests.  A
    [bool] is an [int]; [np.float64] is also a [float]; the subclasses of
    [np.number] are the integers, the floating and the complex numbers of
    numpy (a numpy complex number is a [complex], which is no [float]);
    [np.bool_] is no [np.number]. *)
Inductive pyclass :=
| c_int | c_float | c_str | c_bool
| np_integer | np_floating | np_number | np_bool_.

Definition instance_of (v : PyValue) (c : pyclass) : bool :=
  match c, v with
  | c_int, (PyInt _ | PyBool _) => true
  | c_float, PyFloat _ => true
  | c_float, NpFloating cls _ => String.eqb cls "float64"
  | c_str, PyStr _ => true
  | c_bool, PyBool _ => true
  | np_integer, NpInteger _ _ => true
  | np_floating, NpFloating _ _ => true
  | np_number, (NpInteger _ _ | NpFloating _ _ | NpComplexfloating _ _ _ _) => true
  | np_bool_, NpBool _ => true
  | _, _ => false
  end.

(** [isinstance(value, (c1, c2, ...))] *)
Definition isinstance (v : PyValue) (cs : list pyclass) : bool :=
  existsb (instance_of v) cs.

(** ** The logger

    [self.logger.warning(...)] appends a record; a computation that may log
    returns its result with the records it emitted. *)

Definition Logged (A : Type) : Type := A * list string.

Definition ret {A} (a : A) : Logged A := (a, []).
Definition logger_warning {A} (msg : string) (a : A) : Logged A := (a, [msg]).

(** ** [DataValidator._check_data_type]

    The [try] covers the whole body; only [int(value)] and [float(value)]
    can raise, and the handler returns [False]. *)
Definition _check_data_type (v : PyValue) (expected_type : string) : Logged bool :=
  if String.eqb expected_type "int" then
    if isinstance v [c_int; np_integer] then ret true
    else if isinstance v [c_float; np_floating] then
      match v with
      | PyFloat x | NpFloating _ x => ret (is_integer x)
      | _ => ret false
      end
    else if isinstance v [c_str] then
      match v with
      | PyStr s => match py_int s with Some _ => ret true | None => ret false end
      | _ => ret false
      end
    else ret false
  else if String.eqb expected_type "float" then
    if isinstance v [c_int; c_float; np_number] then ret true
    else if isinstance v [c_str] then
      match v with
      | PyStr s => match py_float s with Some _ => ret true | None => ret false end
      | _ => ret false
      end
    else ret false
  else if String.eqb expected_type "str" then ret (isinstance v [c_str])
  else if String.eqb expected_type "bool" then ret (isinstance v [c_bool; np_bool_])
  else logger_warning ("Unknown data type: " +:+ expected_type) true.

(** ** [validation_result.py] *)

Record ValidationEntry := {
  message : string;
  column : string;
  row : option nat;
  severity : string;
  value : option PyValue
}.

Record ValidationResult := {
  source_file : string;
  errors : list ValidationEntry;
  warnings : list ValidationEntry;
  passed : list ValidationEntry
}.

(** [ValidationResult(source_file=...)] *)
Definition new_result (src : string) : ValidationResult :=
  {| source_file := src; errors := []; warnings := []; passed := [] |}.

Definition add_error (r : ValidationResult) (msg col : string)
    (row : option nat) (v : option PyValue) : ValidationResult :=
  let entry := {| message := msg; column := col; row := row;
                  severity := "error"; value := v |} in
  {| source_file := source_file r; errors := errors r ++ [entry];
     warnings := warnings r; passed := passed r |}.

Definition add_warning (r : ValidationResult) (msg col : string)
    (row : option nat) (v : option PyValue) : ValidationResult :=
  let entry := {| message := msg; column := col; row := row;
                  severity := "warning"; value := v |} in
  {| source_file := source_file r; errors := errors r;
     warnings := warnings r ++ [entry]; passed := passed r |}.

Definition add_passed (r : ValidationResult) (msg col : string)
    (row : option nat) : ValidationResult :=
  let entry := {| message := msg; column := col; row := row;
                  severity := "passed"; value := None |} in
  {| source_file := source_file r; errors := errors r;
     warnings := warnings r; passed := passed r ++ [entry] |}.

(** [a.errors.extend(b.errors); a.warnings.extend(...); a.passed.extend(...)] *)
Definition extend_with (a b : ValidationResult) : ValidationResult :=
  {| source_file := source_file a; errors := errors a ++ errors b;
     warnings := warnings a ++ warnings b;
     passed := passed a ++ passed b |}.

(** ** Data frames *)

Inductive dtype := object_ | int64 | float64 | bool_ | other_dtype (name : string).

Definition is_object (d : dtype) : bool :=
  match d with object_ => true | _ => false end.

Record Series := {
  label : string;
  dtype_of : dtype;
  values : list PyValue
}.

(** [len(df)] is the length of the row index, which every column shares. *)
Record DataFrame := {
  len : nat;
  series : list Series
}.

Definition well_formed (df : DataFrame) : Prop :=
  Forall (fun s => length (values s) = len df) (series df)
  /\ NoDup (map label (series df)).

(** [df.columns] *)
Definition columns (df : DataFrame) : list string := map label (series df).

(** [df.empty]: some axis has length zero. *)
Definition empty (df : DataFrame) : bool :=
  (len df =? 0)%nat || (length (series df) =? 0)%nat.

(** [column in df.columns] and [df[column]] *)
Definition getitem (df : DataFrame) (col : string) : option Series :=
  find (fun s => String.eqb (label s) col) (series df).

(** [pd.isnull] on a cell: [None], the floating NaN and a complex number
    with a NaN part (the other null markers of pandas, [NaT], [pd.NA], a
    decimal NaN and a built-in complex NaN, are no cell values here). *)
Definition isnull (v : PyValue) : bool :=
  match v with
  | PyNone => true
  | PyFloat x | NpFloating _ x => is_nan x
  | NpComplexfloating _ re im _ => is_nan re || is_nan im
  | _ => false
  end.

(** [df[mask].index.tolist()]: the row labels where the mask holds, from
    label [i] on. *)
Fixpoint mask_index (i : nat) (mask : list bool) : list nat :=
  match mask with
  | [] => []
  | b :: m => if b then i :: mask_index (S i) m else mask_index (S i) m
  end.

(** [series.items()]: the cells with their row labels. *)
Fixpoint items_from (i : nat) (l : list PyValue) : list (nat * PyValue) :=
  match l with
  | [] => []
  | v :: r => (i, v) :: items_from (S i) r
  end.

Definition items (s : Series) : list (nat * PyValue) := items_from 0 (values s).

(** [series.dropna().items()] *)
Definition dropna (s : Series) : list (nat * PyValue) :=
  filter (fun p => negb (isnull p.2)) (items s).

(** ** The interpreter *)

Class PyRuntime := {
  (** [str(x)] for a floating-point [x] (the shortest text that reads back) *)
  float_str : spec_float -> string;
  (** the order in which a set of strings is iterated *)
  set_iter : gset string -> list string;
  set_iter_perm : forall X, set_iter X ≡ₚ elements X
}.

(** The file system and the pandas readers; a reader returns the text of the
    exception it raises, or the frame. *)
Record FileSystem := {
  path_exists : string -> bool;
  read_excel : string -> string + DataFrame;
  read_csv : string -> string + DataFrame
}.

Inductive exn :=
| FileNotFoundError (msg : string)
| ValueError (msg : string).

Inductive outcome (A : Type) :=
| Raised (e : exn)
| Returned (a : A).
Arguments Raised {A} e.
Arguments Returned {A} a.

Section DataValidator.
Context `{PyRuntime}.

(** [series.astype(str)] on one cell *)
Definition astype_str (v : PyValue) : string :=
  match v with
  | PyNone => "None"
  | PyBool b | NpBool b => if b then "True" else "False"
  | PyInt n | NpInteger _ n => str_int n
  | PyFloat x | NpFloating _ x => float_str x
  | PyStr s => s
  | NpComplexfloating _ _ _ text | PyObject _ text => text
  end.

Definition null_indices (s : Series) : list nat :=
  mask_index 0 (map isnull (values s)).

Definition empty_indices (s : Series) : list nat :=
  if is_object (dtype_of s) then
    let null_mask := map isnull (values s) in
    let empty_mask :=
      map (fun v => String.eqb (strip (astype_str v)) "") (values s) in
    mask_index 0 (zip_with andb empty_mask (map negb null_mask))
  else [].

(** The body of the loop of [detect_missing_values] for one column
    ([for column in df.columns] with [df[column]]: labels being unique, the
    columns themselves in table order). *)
Definition missing_column (df : DataFrame) (result : ValidationResult)
    (s : Series) : ValidationResult :=
  let result :=
    foldl (fun r idx => add_error r "Missing value (null/NaN)" (label s) (Some idx) None)
          result (null_indices s) in
  let result :=
    foldl (fun r idx => add_error r "Missing value (empty string)" (label s) (Some idx) None)
          result (empty_indices s) in
  let valid_count :=
    Z.of_nat (len df) - Z.of_nat (length (null_indices s))
    - Z.of_nat (length (empty_indices s)) in
  if 0 <? valid_count
  then add_passed result (str_int valid_count +:+ " valid values") (label s) None
  else result.

Definition detect_missing_values (df : DataFrame) : ValidationResult :=
  let result := new_result "" in
  if empty df then add_warning result "Empty dataframe provided" "" None None
  else foldl (missing_column df) result (series df).

(** The body of the inner loop of [validate_data_types] for one cell. *)
Definition type_cell (col expected_type : string)
    (st : Logged ValidationResult) (item : nat * PyValue) : Logged ValidationResult :=
  let '(result, log) := st in
  let '(idx, v) := item in
  let '(is_valid, out) := _check_data_type v expected_type in
  (if negb is_valid
   then add_error result
          ("Invalid data type. Expected " +:+ expected_type +:+ ", got " +:+ type_name v)
          col (Some idx) (Some v)
   else add_passed result ("Valid " +:+ expected_type +:+ " value") col (Some idx),
   log ++ out).

(** The body of the outer loop of [validate_data_types] for one rule. *)
Definition type_rule (df : DataFrame) (st : Logged ValidationResult)
    (rule : string * string) : Logged ValidationResult :=
  let '(col, expected_type) := rule in
  match getitem df col with
  | None => (add_error st.1 "Column not found in data" col None None, st.2)
  | Some s =>
      let col_data := dropna s in
      match col_data with
      | [] => (add_warning st.1 "Column contains only missing values" col None None, st.2)
      | _ => foldl (type_cell col expected_type) st col_data
      end
  end.

(** [type_rules] is a dict: its items in insertion order. *)
Definition validate_data_types (df : DataFrame)
    (type_rules : list (string * string)) : Logged ValidationResult :=
  foldl (type_rule df) (new_result "", []) type_rules.

Definition _validate_required_columns (df : DataFrame)
    (required_columns : list string) (result : ValidationResult) : ValidationResult :=
  let missing_columns : gset string :=
    list_to_set required_columns ∖ list_to_set (columns df) in
  let result :=
    foldl (fun r col => add_error r "Required column missing" col None None)
          result (set_iter missing_columns) in
  foldl (fun r col =>
           if bool_decide (col ∈ columns df)
           then add_passed r "Required column present" col None
           else r)
        result required_columns.

(** The rules: a dict in which each of the two keys may be absent. *)
Record RuleSet := {
  required_columns : option (list string);
  data_types : option (list (string * string))
}.

(** [validate_file] once the frame is loaded. *)
Definition validate_frame (file_path : string) (df : DataFrame)
    (rules : RuleSet) : Logged ValidationResult :=
  let result := new_result file_path in
  if empty df then ret (add_warning result "File contains no data" "" None None)
  else
    let result :=
      match required_columns rules with
      | Some req => _validate_required_columns df req result
      | None => result
      end in
    let missing_result := detect_missing_values df in
    let result := extend_with result missing_result in
    match data_types rules with
    | Some type_rules =>
        let '(type_result, log) := validate_data_types df type_rules in
        (extend_with result type_result, log)
    | None => ret result
    end.

(** The loading part of [validate_file]: the [ValueError] for an unsupported
    extension is raised inside the [try] and wrapped like a reader's. *)
Definition load (fs : FileSystem) (file_path : string) : outcome DataFrame :=
  if negb (path_exists fs file_path)
  then Raised (FileNotFoundError ("File not found: " +:+ file_path))
  else
    let attempt :=
      if endswith file_path ".xlsx" then read_excel fs file_path
      else if endswith file_path ".csv" then read_csv fs file_path
      else inl ("Unsupported file format: " +:+ file_path) in
    match attempt with
    | inl e => Raised (ValueError ("Error reading file " +:+ file_path +:+ ": " +:+ e))
    | inr df => Returned df
    end.

Definition validate_file (fs : FileSystem) (file_path : string)
    (rules : RuleSet) : outcome (Logged ValidationResult) :=
  match load fs file_path with
  | Raised e => Raised e
  | Returned df => Returned (validate_frame file_path df rules)
  end.

End DataValidator.

(** * The vocabulary of the specification *)

(** ** The type table

    The table of section 4.2c speaks of native integers, floating values,
    text values and native booleans; these are the kinds of cell, whether
    the scalar is a built-in one or a numpy one.  Its native numeric values
    are the integers and the floating values; numpy has complex numbers
    besides. *)

Definition native_integer (v : PyValue) : bool :=
  match v with PyInt _ | NpInteger _ _ => true | _ => false end.

Definition native_floating (v : PyValue) : bool :=
  match v with PyFloat _ | NpFloating _ _ => true | _ => false end.

Definition native_complex (v : PyValue) : bool :=
  match v with NpComplexfloating _ _ _ _ => true | _ => false end.

(** The numbers: integers, floating and complex numbers. *)
Definition native_numeric (v : PyValue) : bool :=
  native_integer v || native_floating v || native_complex v.

Definition native_boolean (v : PyValue) : bool :=
  match v with PyBool _ | NpBool _ => true | _ => false end.

Definition text_value (v : PyValue) : bool :=
  match v with PyStr _ => true | _ => false end.

(** The boolean of the language itself, which Python makes a kind of [int]. *)
Definition builtin_bool (v : PyValue) : bool :=
  match v with PyBool _ => true | _ => false end.

Definition zero_fraction (v : PyValue) : bool :=
  match v with PyFloat x | NpFloating _ x => is_integer x | _ => false end.

Definition parses_as_integer (v : PyValue) : bool :=
  match v with PyStr s => bool_decide (is_Some (py_int s)) | _ => false end.

Definition parses_as_float (v : PyValue) : bool :=
  match v with PyStr s => bool_decide (is_Some (py_float s)) | _ => false end.

(** The table of section 4.2c, row by row. *)
Definition table_accepts (expected_type : string) (v : PyValue) : bool :=
  if String.eqb expected_type "int" then
    native_integer v || zero_fraction v || parses_as_integer v
  else if String.eqb expected_type "float" then
    native_integer v || native_floating v || parses_as_float v
  else if String.eqb expected_type "str" then text_value v
  else if String.eqb expected_type "bool" then native_boolean v
  else true.

Definition recognized (expected_type : string) : bool :=
  String.eqb expected_type "int" || String.eqb expected_type "float"
  || String.eqb expected_type "str" || String.eqb expected_type "bool".

(** ** Findings

    Every pass only appends to the three sequences of the result it works
    on; what it appends is described by a result of its own. *)

Definition error_entry (msg col : string) (row : option nat) (v : option PyValue) :=
  {| message := msg; column := col; row := row;
     severity := "error"; value := v |}.

Definition warning_entry (msg col : string) (row : option nat) (v : option PyValue) :=
  {| message := msg; column := col; row := row;
     severity := "warning"; value := v |}.

Definition passed_entry (msg col : string) (row : option nat) :=
  {| message := msg; column := col; row := row;
     severity := "passed"; value := None |}.

Definition findings (es ws ps : list ValidationEntry) : ValidationResult :=
  {| source_file := ""; errors := es; warnings := ws; passed := ps |}.

(** The entries of the missing-value check for one column. *)

Definition null_error (s : Series) (i : nat) : ValidationEntry :=
  error_entry "Missing value (null/NaN)" (label s) (Some i) None.

Definition empty_error (s : Series) (i : nat) : ValidationEntry :=
  error_entry "Missing value (empty string)" (label s) (Some i) None.

(** The entries of the type check for one cell and for one rule. *)

Definition valid_value (col expected_type : string) (i : nat) : ValidationEntry :=
  passed_entry ("Valid " +:+ expected_type +:+ " value") col (Some i).

Definition invalid_type (col expected_type : string) (i : nat) (v : PyValue)
  : ValidationEntry :=
  error_entry ("Invalid data type. Expected " +:+ expected_type
               +:+ ", got " +:+ type_name v) col (Some i) (Some v).

Definition cell_findings (col expected_type : string) (item : nat * PyValue)
  : ValidationResult :=
  if (_check_data_type item.2 expected_type).1
  then findings [] [] [valid_value col expected_type item.1]
  else findings [invalid_type col expected_type item.1 item.2] [] [].

Definition cell_log (expected_type : string) (item : nat * PyValue) : list string :=
  (_check_data_type item.2 expected_type).2.

Definition rule_findings (df : DataFrame) (rule : string * string)
  : ValidationResult :=
  match getitem df rule.1 with
  | None => findings [error_entry "Column not found in data" rule.1 None None] [] []
  | Some s =>
      match dropna s with
      | [] => findings []
                [warning_entry "Column contains only missing values" rule.1 None None] []
      | cells =>
          findings (flat_map (errors ∘ cell_findings rule.1 rule.2) cells) []
                   (flat_map (passed ∘ cell_findings rule.1 rule.2) cells)
      end
  end.

Definition rule_log (df : DataFrame) (rule : string * string) : list string :=
  match getitem df rule.1 with
  | None => []
  | Some s => flat_map (cell_log rule.2) (dropna s)
  end.

(** The entries of the required-column check. *)

Definition column_missing (col : string) : ValidationEntry :=
  error_entry "Required column missing" col None None.

Definition column_present (col : string) : ValidationEntry :=
  passed_entry "Required column present" col None.

Definition missing_columns (df : DataFrame) (req : list string) : gset string :=
  list_to_set req ∖ list_to_set (columns df).

Definition presence_findings (df : DataFrame) (col : string) : ValidationResult :=
  if bool_decide (col ∈ columns df)
  then findings [] [] [column_present col]
  else findings [] [] [].

(** The result for a table without rows. *)

Definition no_data (path : string) : ValidationResult :=
  {| source_file := path; errors := [];
     warnings := [warning_entry "File contains no data" "" None None];
     passed := [] |}.

(** The entries that carry a row come in increasing row order. *)
Definition in_row_order (l : list ValidationEntry) : Prop :=
  StronglySorted lt (omap row l).

Section Findings.
Context `{PyRuntime}.

Definition valid_count (df : DataFrame) (s : Series) : Z :=
  Z.of_nat (len df) - Z.of_nat (length (null_indices s))
  - Z.of_nat (length (empty_indices s)).

Definition valid_values (df : DataFrame) (s : Series) : ValidationEntry :=
  passed_entry (str_int (valid_count df s) +:+ " valid values") (label s) None.

Definition missing_findings (df : DataFrame) (s : Series) : ValidationResult :=
  findings (map (null_error s) (null_indices s)
            ++ map (empty_error s) (empty_indices s))
           []
           (if 0 <? valid_count df s then [valid_values df s] else []).

Definition required_findings (df : DataFrame) (req : list string)
  : ValidationResult :=
  findings (map column_missing (set_iter (missing_columns df req))) []
           (map column_present (filter (λ col, col ∈ columns df) req)).

(** What [validate_file] appends in the first and in the last pass, on a
    loaded frame with rows and columns. *)
Definition required_part (df : DataFrame) (rules : RuleSet) : ValidationResult :=
  match required_columns rules with
  | Some req => required_findings df req
  | None => findings [] [] []
  end.

Definition type_part (df : DataFrame) (rules : RuleSet) : Logged ValidationResult :=
  match data_types rules with
  | Some type_rules => validate_data_types df type_rules
  | None => ret (findings [] [] [])
  end.

End Findings.

(** * Examples *)

(** A runtime to evaluate examples: sets are iterated in the order of
    [elements], and a float is written with its exact decimal expansion
    (CPython prints the shortest text that reads back as the same double,
    which is this text for doubles such as 1.0, 2.5 or 30.0). *)

(** [n / 10^k] without trailing zeros in the fraction. *)
Fixpoint trim_zeros (fuel : nat) (n k : Z) : Z * Z :=
  match fuel with
  | O => (n, k)
  | S fuel => if (1 <? k) && (n mod 10 =? 0) then trim_zeros fuel (n / 10) (k - 1)
              else (n, k)
  end.

Definition decimal_text (n k : Z) : string :=
  let '(n, k) := trim_zeros (Z.to_nat k) n k in
  let frac := str_int (10 ^ k + n mod 10 ^ k) in
  str_int (n / 10 ^ k) +:+ "." +:+ substring 1 (Z.to_nat k) frac.

Definition exact_float_str (x : spec_float) : string :=
  match x with
  | S754_nan => "nan"
  | S754_infinity s => if s then "-inf" else "inf"
  | S754_zero s => if s then "-0.0" else "0.0"
  | S754_finite s m e =>
      (if s then "-" else "")
      +:+ (if 0 <=? e then decimal_text (Z.pos m * 2 ^ e * 10) 1
           else decimal_text (Z.pos m * 5 ^ (- e)) (- e))
  end.

Definition example_runtime : PyRuntime :=
  {| float_str := exact_float_str;
     set_iter := elements;
     set_iter_perm := λ X, reflexivity (elements X) |}.

(** A file system holding the given frames as spreadsheets. *)
Definition files (fs : list (string * DataFrame)) : FileSystem :=
  let read path :=
    match list_find (λ f, f.1 = path) fs with
    | Some (_, (_, df)) => inr df
    | None => inl "unreadable"
    end in
  {| path_exists := λ path, bool_decide (path ∈ fs.*1);
     read_excel := read;
     read_csv := read |}.

(** Doubles used in the examples: 30.0, 3.5, 1.0 and 2.0 in binary64 form. *)
Definition f30 : spec_float := S754_finite false 8444249301319680 (-48).

Definition f3_5 : spec_float := S754_finite false 7881299347898368 (-51).

Definition f1 : spec_float := S754_finite false 4503599627370496 (-52).

Definition f2 : spec_float := S754_finite false 4503599627370496 (-51).

(** The table [{id: [1, 2, None], name: ["A", "B", ""]}] as pandas holds it:
    a numeric column with a hole is a float column with a NaN. *)
Definition scenario_table : DataFrame :=
  {| len := 3;
     series :=
       [ {| label := "id"; dtype_of := float64;
            values := [PyFloat f1; PyFloat f2; PyFloat S754_nan] |};
         {| label := "name"; dtype_of := object_;
            values := [PyStr "A"; PyStr "B"; PyStr ""] |} ] |}.

Definition scenario_types : list (string * string) :=
  [("id", "int"); ("name", "str")].

Definition scenario_rules : RuleSet :=
  {| required_columns := None; data_types := Some scenario_types |}.

(** A column under a tag that is not recognized. *)

Definition tagged_table : DataFrame :=
  {| len := 2;
     series := [ {| label := "when"; dtype_of := object_;
                    values := [PyStr "2024-01-01"; PyNone] |} ] |}.

(** A file with a header line only. *)

Definition header_only : DataFrame :=
  {| len := 0;
     series := [ {| label := "id"; dtype_of := object_; values := [] |} ] |}.

(** A table with the single column [a]. *)

Definition only_a : DataFrame :=
  {| len := 1;
     series := [ {| label := "a"; dtype_of := int64; values := [PyInt 1] |} ] |}.

(** A blank text above a null, in one column. *)

Definition blank_then_null : DataFrame :=
  {| len := 2;
     series := [ {| label := "a"; dtype_of := object_;
                    values := [PyStr " "; PyNone] |} ] |}.

Definition no_rules : RuleSet :=
  {| required_columns := None; data_types := None |}.

(** * The rest of the program *)

(** ** [validation_result.py], the queries *)

(** [len(self.errors) > 0] *)
Definition has_errors (r : ValidationResult) : bool :=
  (0 <? length (errors r))%nat.

Definition has_warnings (r : ValidationResult) : bool :=
  (0 <? length (warnings r))%nat.

(** The dict of [get_summary], a field per key. *)
Record Summary := {
  summary_source_file : string;
  total_errors : nat;
  total_warnings : nat;
  total_passed : nat;
  total_issues : nat
}.

Definition get_summary (r : ValidationResult) : Summary :=
  {| summary_source_file := source_file r;
     total_errors := length (errors r);
     total_warnings := length (warnings r);
     total_passed := length (passed r);
     total_issues := length (errors r) + length (warnings r) |}.

(** A call of one of the three methods that change a result. *)
Inductive call :=
| call_add_error (msg col : string) (row : option nat) (v : option PyValue)
| call_add_warning (msg col : string) (row : option nat) (v : option PyValue)
| call_add_passed (msg col : string) (row : option nat).

Definition perform (r : ValidationResult) (c : call) : ValidationResult :=
  match c with
  | call_add_error msg col row v => add_error r msg col row v
  | call_add_warning msg col row v => add_warning r msg col row v
  | call_add_passed msg col row => add_passed r msg col row
  end.

(** ** [str.title], [str.upper] on ASCII text *)

Definition upper (c : ascii) : ascii :=
  let n := N_of_ascii c in
  if ((97 <=? n) && (n <=? 122))%N then ascii_of_N (n - 32) else c.

Definition is_cased (c : ascii) : bool :=
  let n := N_of_ascii c in
  ((65 <=? n) && (n <=? 90) || (97 <=? n) && (n <=? 122))%N.

(** A letter after a letter is lowered, any other letter is raised. *)
Fixpoint title_chars (previous_is_cased : bool) (l : list ascii) : list ascii :=
  match l with
  | [] => []
  | c :: r =>
      (if previous_is_cased then lower c else upper c)
      :: title_chars (is_cased c) r
  end.

(** [s.title()] *)
Definition title (s : string) : string :=
  string_of_list_ascii (title_chars false (list_ascii_of_string s)).

(** ** [DataValidator.generate_colored_output] and [_apply_color_coding] *)

(** [PatternFill(start_color=..., end_color=..., fill_type=...)] *)
Record PatternFill := {
  start_color : string;
  end_color : string;
  fill_type : string
}.

(** [self.colors] *)
Definition colors : gmap string PatternFill :=
  {[ "error" := {| start_color := "FFCCCC"; end_color := "FFCCCC";
                   fill_type := "solid" |};
     "warning" := {| start_color := "FFFFCC"; end_color := "FFFFCC";
                     fill_type := "solid" |};
     "passed" := {| start_color := "CCFFCC"; end_color := "CCFFCC";
                    fill_type := "solid" |} ]}.

(** The cell ['Row'] of the summary: the row of the entry, or ['All']. *)
Inductive RowCell :=
| RowAt (i : nat)
| RowAll.

(** A row of the sheet [Summary]. *)
Record SummaryRow := {
  Column : string;
  Row : RowCell;
  Severity : string;
  Message : string;
  Value : PyValue
}.

Definition summary_row (entry : ValidationEntry) : SummaryRow :=
  {| Column := column entry;
     Row := match row entry with Some i => RowAt i | None => RowAll end;
     Severity := title (severity entry);
     Message := message entry;
     Value := match value entry with Some v => v | None => PyStr "" end |}.

(** The loop that fills [summary_data]. *)
Definition summary_data (r : ValidationResult) : list SummaryRow :=
  let all_entries := errors r ++ warnings r ++ passed r in
  foldl (fun rows entry => rows ++ [summary_row entry]) [] all_entries.

(** The single row of the sheet [Data_Lineage]. *)
Record Lineage := {
  lineage_source_file : string;
  total_rows : nat;
  total_columns : nat;
  validation_timestamp : string;
  lineage_total_errors : nat;
  lineage_total_warnings : nat;
  lineage_total_passed : nat
}.

Definition lineage_data (r : ValidationResult) (original_df : DataFrame)
    (now : string) : list Lineage :=
  [ {| lineage_source_file := source_file r;
       total_rows := len original_df;
       total_columns := length (columns original_df);
       validation_timestamp := now;
       lineage_total_errors := length (errors r);
       lineage_total_warnings := length (warnings r);
       lineage_total_passed := length (passed r) |} ].

(** What [pd.read_excel(result.source_file)] does inside the loop of
    [_apply_color_coding]: it returns a frame, or raises an exception that
    the handler of the loop catches ([ValueError], [KeyError]), or raises
    another one. *)
Inductive read_attempt :=
| ReadFrame (df : DataFrame)
| ReadCaught
| ReadRaises (e : string).

(** How rendering fails: a reader's exception comes through, or the sheet to
    colour is not in the workbook ([KeyError] of [workbook[sheet_name]]), or
    the writer raises, when it is opened, when a sheet is written or when it
    is closed. *)
Inductive render_error :=
| ReaderError (e : string)
| NoSuchSheet (sheet_name : string)
| WriterError (e : string).

(** [list(df.columns).index(name)]; [None] stands for its [ValueError]. *)
Definition index (l : list string) (name : string) : option nat :=
  fst <$> list_find (fun x => x = name) l.

(** The body of the first loop of [_apply_color_coding]; an exception that
    is not caught ends the loop. *)
Definition color_entry (sheets : list string) (reread : read_attempt)
    (sheet_name : string)
    (st : render_error + gmap (nat * nat) string) (entry : ValidationEntry)
  : render_error + gmap (nat * nat) string :=
  match st with
  | inl e => inl e
  | inr cell_severity =>
      match row entry with
      | None => inr cell_severity
      | Some i =>
          let excel_row := (i + 2)%nat in
          if bool_decide (sheet_name ∈ sheets) then
            match reread with
            | ReadFrame df =>
                match index (columns df) (column entry) with
                | Some j =>
                    let col_idx := (j + 1)%nat in
                    inr (<[(excel_row, col_idx) := severity entry]> cell_severity)
                | None => inr cell_severity
                end
            | ReadCaught => inr cell_severity
            | ReadRaises e => inl (ReaderError e)
            end
          else inr cell_severity
      end
  end.

Definition cell_severity_of (sheets : list string) (reread : read_attempt)
    (sheet_name : string) (r : ValidationResult)
  : render_error + gmap (nat * nat) string :=
  foldl (color_entry sheets reread sheet_name) (inr ∅)
        (errors r ++ warnings r ++ passed r).

(** The second loop: the fill of each cell whose severity has a colour. *)
Definition apply_colors (worksheet : gmap (nat * nat) PatternFill)
    (cell_severity : gmap (nat * nat) string) : gmap (nat * nat) PatternFill :=
  map_fold (fun cell sev ws =>
              match colors !! sev with
              | Some fill => <[cell := fill]> ws
              | None => ws
              end)
           worksheet cell_severity.

(** The worksheet is given by the fills of its cells, keyed by the row and
    the column of the sheet, both counted from 1. *)
Definition _apply_color_coding (sheets : list string) (reread : read_attempt)
    (worksheet : gmap (nat * nat) PatternFill)
    (r : ValidationResult) (sheet_name : string)
  : render_error + gmap (nat * nat) PatternFill :=
  if bool_decide (sheet_name ∈ sheets) then
    match cell_severity_of sheets reread sheet_name r with
    | inl e => inl e
    | inr cell_severity => inr (apply_colors worksheet cell_severity)
    end
  else inl (NoSuchSheet sheet_name).

(** The workbook written to [output_path]: its three sheets, and the fills
    of [Validated_Data]. *)
Record Workbook := {
  Validated_Data : DataFrame;
  Summary_sheet : list SummaryRow;
  Data_Lineage : list Lineage;
  fills : gmap (nat * nat) PatternFill
}.

(** What is handed to [to_excel]: one of the three frames. *)
Inductive sheet_data :=
| FrameSheet (df : DataFrame)
| SummarySheet (rows : list SummaryRow)
| LineageSheet (rows : list Lineage).

(** What rendering needs of the world: the file system, what reading the
    source as a spreadsheet does while colouring, the time, and the writer.
    Each operation of the writer gives the exception it raises, if any:
    [pd.ExcelWriter(output_path, engine='openpyxl')] (an extension the
    engine does not support, a directory that is not there),
    [frame.to_excel(writer, sheet_name=..., index=False)] (a cell the engine
    cannot write), and closing the writer on leaving the [with] block, which
    saves the sheets written so far to the path. *)
Record RenderEnv := {
  render_fs : FileSystem;
  read_as_excel : string -> read_attempt;
  timestamp_now : string;
  open_writer : string -> option string;
  to_excel : sheet_data -> string -> option string;
  close_writer : string -> list (string * sheet_data) -> option string
}.

(** The calls of [to_excel] in turn: the sheets written, and the exception
    that ended the writing, if any. *)
Fixpoint write_sheets (env : RenderEnv) (written todo : list (string * sheet_data))
  : list (string * sheet_data) * option string :=
  match todo with
  | [] => (written, None)
  | (sheet_name, data) :: rest =>
      match to_excel env data sheet_name with
      | Some e => (written, Some e)
      | None => write_sheets env (written ++ [(sheet_name, data)]) rest
      end
  end.

(** The [with] block closes the writer however its body ends, and an
    exception raised on closing is the one that comes through.  The result
    is the exception that comes through, or the output path with the
    workbook saved there; what a failing call leaves at the path is not
    described. *)
Definition generate_colored_output (env : RenderEnv) (r : ValidationResult)
    (output_path : string) : render_error + (string * Workbook) :=
  let loaded :=
    if endswith (source_file r) ".xlsx"
    then read_excel (render_fs env) (source_file r)
    else read_csv (render_fs env) (source_file r) in
  match loaded with
  | inl e => inl (ReaderError e)
  | inr original_df =>
      let styled_df := original_df in
      let summary_df := summary_data r in
      let lineage_df := lineage_data r original_df (timestamp_now env) in
      match open_writer env output_path with
      | Some e => inl (WriterError e)
      | None =>
          let '(written, failure) :=
            write_sheets env []
              [ ("Validated_Data", FrameSheet styled_df);
                ("Summary", SummarySheet summary_df);
                ("Data_Lineage", LineageSheet lineage_df) ] in
          let body :=
            match failure with
            | Some e => inl (WriterError e)
            | None =>
                _apply_color_coding written.*1
                  (read_as_excel env (source_file r)) ∅ r "Validated_Data"
            end in
          match close_writer env output_path written with
          | Some e => inl (WriterError e)
          | None =>
              match body with
              | inl e => inl e
              | inr coloured =>
                  inr (output_path,
                       {| Validated_Data := styled_df; Summary_sheet := summary_df;
                          Data_Lineage := lineage_df; fills := coloured |})
              end
          end
      end
  end.

(** ** [cli.py]: [CommandParser.parse_command] *)

(** [s.split(' ', 1)]: the text before the first separator, and the text
    after it when there is one. *)
Fixpoint split_first (sep : ascii) (l : list ascii)
  : list ascii * option (list ascii) :=
  match l with
  | [] => ([], None)
  | c :: r =>
      if Ascii.eqb c sep then ([], Some r)
      else let '(a, b) := split_first sep r in (c :: a, b)
  end.

Section CommandParser.
(** The argument dicts, with the empty one; the parsers of [/validate] and
    [/help] rest on [shlex], [argparse] and [json] and are taken as given. *)
Variable Args : Type.
Variable empty_args : Args.
Variable _parse_validate_command : string -> outcome Args.
Variable _parse_help_command : string -> outcome Args.

Definition _parse_clear_command (args_str : string) : outcome Args :=
  Returned empty_args.

Definition _parse_status_command (args_str : string) : outcome Args :=
  Returned empty_args.

(** [self.commands] *)
Definition commands : gmap string (string -> outcome Args) :=
  {[ "validate" := _parse_validate_command;
     "help" := _parse_help_command;
     "clear" := _parse_clear_command;
     "status" := _parse_status_command ]}.

Definition parse_command (command_str : string) : outcome (string * Args) :=
  if negb (String.prefix "/" command_str)
  then Raised (ValueError "Commands must start with '/'")
  else
    let parts := split_first " " (tail (list_ascii_of_string command_str)) in
    let command := lower_string parts.1 in
    match commands !! command with
    | None => Raised (ValueError ("Unknown command: " +:+ command))
    | Some parse =>
        let args_str :=
          match parts.2 with
          | Some rest => string_of_list_ascii rest
          | None => ""
          end in
        match parse args_str with
        | Raised e => Raised e
        | Returned args => Returned (command, args)
        end
    end.

End CommandParser.

(** ** Vocabulary of the further properties *)

(** The entry a call appends to each of the three sequences. *)
Definition error_of_call (c : call) : option ValidationEntry :=
  match c with
  | call_add_error msg col row v => Some (error_entry msg col row v)
  | _ => None
  end.

Definition warning_of_call (c : call) : option ValidationEntry :=
  match c with
  | call_add_warning msg col row v => Some (warning_entry msg col row v)
  | _ => None
  end.

Definition passed_of_call (c : call) : option ValidationEntry :=
  match c with
  | call_add_passed msg col row => Some (passed_entry msg col row)
  | _ => None
  end.

(** The entries of each sequence carry the severity of the sequence, and a
    value is attached to type-mismatch errors only. *)
Definition classified (r : ValidationResult) : Prop :=
  Forall (λ e, severity e = "error"
               ∧ ∀ v, value e = Some v →
                      ∃ ty i, row e = Some i ∧ e = invalid_type (column e) ty i v)
         (errors r)
  ∧ Forall (λ e, severity e = "warning" ∧ value e = None) (warnings r)
  ∧ Forall (λ e, severity e = "passed" ∧ value e = None) (passed r).

(** The cell of the sheet an entry colours, when the source read again is
    the frame [df]: its row and the first column of its name, behind the
    header row. *)
Definition cell_of (df : DataFrame) (e : ValidationEntry) : option (nat * nat) :=
  i ← row e; j ← index (columns df) (column e); Some ((i + 2)%nat, (j + 1)%nat).

(** The severities of the cells after the first loop of
    [_apply_color_coding], when the source read again is the frame [df]. *)
Definition cell_severity_frame (df : DataFrame) (l : list ValidationEntry)
  : gmap (nat * nat) string :=
  foldl (λ cs e, match cell_of df e with
                 | Some cell => <[cell := severity e]> cs
                 | None => cs
                 end) ∅ l.

(** The entries of a result in the order rendering goes through them. *)
Definition all_entries (r : ValidationResult) : list ValidationEntry :=
  errors r ++ warnings r ++ passed r.

(** The fill of the [passed] cells. *)
Definition light_green : PatternFill :=
  {| start_color := "CCFFCC"; end_color := "CCFFCC"; fill_type := "solid" |}.

(** Every row an entry carries is a row of a table with [n] rows. *)
(** The world of the rendering examples: the given spreadsheets, read again
    without trouble while colouring, and a writer that raises nothing. *)
Definition quiet_writer (fs : list (string * DataFrame)) : RenderEnv :=
  {| render_fs := files fs;
     read_as_excel := λ path,
       match list_find (λ f, f.1 = path) fs with
       | Some (_, (_, df)) => ReadFrame df
       | None => ReadRaises "unreadable"
       end;
     timestamp_now := "2024-01-01T00:00:00";
     open_writer := λ _, None;
     to_excel := λ _ _, None;
     close_writer := λ _ _, None |}.

Definition rows_below (n : nat) (r : ValidationResult) : Prop :=
  Forall (λ e, ∀ i, row e = Some i → (i < n)%nat) (all_entries r).

(** The pair [parse_command] returns, when the parser of the command
    returns. *)
Definition tagged {A} (command : string) (parsed : outcome A)
  : outcome (string * A) :=
  match parsed with
  | Raised e => Raised e
  | Returned args => Returned (command, args)
  end.

(** The command word in lower case. *)
Definition lower_word (word : string) : string :=
  lower_string (list_ascii_of_string word).

(** * Properties of the text primitives *)

Lemma elem_of_rev {A} (x : A) (l : list A) : x ∈ rev l ↔ x ∈ l.
Proof. rewrite !list_elem_of_In. symmetry. apply in_rev. Qed.

Lemma skip_space_keeps c l : Py_ISSPACE c = false → c ∈ l → c ∈ skip_space l.
Proof.
  intros Hc. induction l as [|d l IH]; simpl; [done|].
  intros Hin. destruct (Py_ISSPACE d) eqn:Hd; [|done].
  apply elem_of_cons in Hin as [->|Hin]; [congruence|auto].
Qed.

Lemma numeral_chars_keeps c l :
  Py_ISSPACE c = false → c ∈ l → c ∈ numeral_chars l.
Proof.
  intros Hc Hin. unfold numeral_chars.
  apply elem_of_rev, skip_space_keeps; [done|].
  apply elem_of_rev, skip_space_keeps; done.
Qed.

(** White space holds no digit, so the numeral has the digits of the text. *)
Lemma count_digits_app a b :
  count_digits (a ++ b) = (count_digits a + count_digits b)%nat.
Proof.
  induction a as [|c a IH]; simpl; [done|]. rewrite IH. by destruct (is_digit c).
Qed.

Lemma count_digits_rev l : count_digits (rev l) = count_digits l.
Proof.
  induction l as [|c l IH]; simpl; [done|].
  rewrite count_digits_app, IH. simpl. destruct (is_digit c); lia.
Qed.

Lemma space_is_no_digit c : Py_ISSPACE c = true → is_digit c = false.
Proof. destruct c as [[] [] [] [] [] [] [] []]; done. Qed.

Lemma count_digits_skip_space l : count_digits (skip_space l) = count_digits l.
Proof.
  induction l as [|c l IH]; simpl; [done|].
  destruct (Py_ISSPACE c) eqn:Hc; [|done].
  by rewrite IH, (space_is_no_digit c Hc).
Qed.

Lemma count_digits_numeral_chars l :
  count_digits (numeral_chars l) = count_digits l.
Proof.
  unfold numeral_chars.
  by rewrite count_digits_rev, count_digits_skip_space, count_digits_rev,
    count_digits_skip_space.
Qed.

(** A text [int] accepts holds digits and underscores only, after the sign. *)
Lemma int_digits_chars l : ∀ acc b z,
  int_digits acc b l = Some z → ∀ c, c ∈ l → is_digit c = true ∨ c = "_"%char.
Proof.
  induction l as [|d l IH]; intros acc b z Hz c Hc; [by apply elem_of_nil in Hc|].
  simpl in Hz. destruct (is_digit d) eqn:Hd.
  - apply elem_of_cons in Hc as [->|Hc]; [by left|eauto].
  - destruct (Ascii.eqb d "_") eqn:Hu; simpl in Hz; [|done].
    destruct b; [|done]. apply Ascii.eqb_eq in Hu.
    apply elem_of_cons in Hc as [->|Hc]; [by right|eauto].
Qed.

Lemma py_int_chars_no_point l z : py_int_chars l = Some z → "."%char ∉ l.
Proof.
  intros Hz Hin.
  assert (Hd : ∀ r acc b z', int_digits acc b r = Some z' → "."%char ∉ r).
  { intros r acc b z' Hr Hp.
    destruct (int_digits_chars _ _ _ _ Hr _ Hp) as [Hdig|Heq]; done. }
  unfold py_int_chars in Hz.
  destruct l as [|c r]; [by apply elem_of_nil in Hin|].
  destruct (decide (c = "+"%char)) as [->|Hplus].
  { apply elem_of_cons in Hin as [?|Hin]; [done|]. by eapply Hd. }
  destruct (decide (c = "-"%char)) as [->|Hminus].
  { apply elem_of_cons in Hin as [?|Hin]; [done|].
    destruct (int_digits 0 false r) eqn:Hr; [|done]. by eapply Hd. }
  assert (Hz' : int_digits 0 false (c :: r) = Some z).
  { revert Hz. destruct c as [[] [] [] [] [] [] [] []]; try done. }
  by eapply Hd.
Qed.

(** [int(s)] never accepts a text with a decimal point. *)
Lemma py_int_no_point s z :
  py_int s = Some z → "."%char ∉ list_ascii_of_string s.
Proof.
  unfold py_int. destruct (_ <? _)%nat; [done|].
  intros Hz Hin. apply py_int_chars_no_point in Hz. apply Hz.
  by apply numeral_chars_keeps.
Qed.

(** [int(s)] refuses a text with more digits than the limit. *)
Lemma py_int_limit s :
  (int_max_str_digits < count_digits (list_ascii_of_string s))%nat →
  py_int s = None.
Proof.
  intros Hmany. unfold py_int. rewrite count_digits_numeral_chars.
  by apply Nat.ltb_lt in Hmany as ->.
Qed.

(** ** The characters of a numeral

    Signs, the point, digits, letters and the underscore all come after the
    blank in ASCII, at 43 or later. *)

Lemma digit_is_numeral_char c : is_digit c = true → (43 <= N_of_ascii c)%N.
Proof.
  unfold is_digit. intros Hc. apply andb_prop in Hc as [Hc _].
  apply N.leb_le in Hc. lia.
Qed.

Lemma lower_numeral_char c :
  (43 <= N_of_ascii (lower c))%N → (43 <= N_of_ascii c)%N.
Proof.
  unfold lower. destruct (_ && _)%N eqn:Hc; [|done].
  intros _. apply andb_prop in Hc as [Hc _]. apply N.leb_le in Hc. lia.
Qed.

Lemma py_int_chars_numeral l z :
  py_int_chars l = Some z → Forall (λ c, (43 <= N_of_ascii c)%N) l.
Proof.
  intros Hz.
  assert (Hd : ∀ r acc b z', int_digits acc b r = Some z' →
                 Forall (λ c, (43 <= N_of_ascii c)%N) r).
  { intros r acc b z' Hr. apply Forall_forall. intros c Hc.
    destruct (int_digits_chars _ _ _ _ Hr _ Hc) as [Hdig| ->];
      [by apply digit_is_numeral_char|done]. }
  unfold py_int_chars in Hz. destruct l as [|c r]; [done|].
  destruct (decide (c = "+"%char)) as [->|Hplus].
  { constructor; [done|]. by eapply Hd. }
  destruct (decide (c = "-"%char)) as [->|Hminus].
  { constructor; [done|].
    destruct (int_digits 0 false r) eqn:Hr; [|done]. by eapply Hd. }
  assert (Hz' : int_digits 0 false (c :: r) = Some z).
  { revert Hz. destruct c as [[] [] [] [] [] [] [] []]; try done. }
  by eapply Hd.
Qed.

Lemma take_digits_split l : ∀ acc n a k r,
  take_digits acc n l = (a, k, r) →
  ∃ ds, l = ds ++ r ∧ Forall (λ c, is_digit c = true) ds.
Proof.
  induction l as [|c l IH]; intros acc n a k r Hl; simpl in Hl.
  - injection Hl as _ _ <-. by exists [].
  - destruct (is_digit c) eqn:Hc.
    + destruct (IH _ _ _ _ _ Hl) as (ds & -> & Hds).
      exists (c :: ds). split; [done|]. by constructor.
    + injection Hl as _ _ <-. by exists [].
Qed.

Lemma digits_numeral ds :
  Forall (λ c, is_digit c = true) ds → Forall (λ c, (43 <= N_of_ascii c)%N) ds.
Proof.
  intros Hds. eapply Forall_impl; [exact Hds|]. apply digit_is_numeral_char.
Qed.

Lemma float_exponent_numeral l e :
  float_exponent l = Some e → Forall (λ c, (43 <= N_of_ascii c)%N) l.
Proof.
  destruct l as [|c r]; [done|]. simpl.
  destruct (Ascii.eqb_spec (lower c) "e") as [Hc|]; [|done].
  intros He. constructor. { apply lower_numeral_char. by rewrite Hc. }
  assert (Hdigits : ∀ r', match take_digits 0 0 r' with
                          | (_, _, []) => True
                          | _ => False
                          end → Forall (λ c, (43 <= N_of_ascii c)%N) r').
  { intros r' Hr'. destruct (take_digits 0 0 r') as [[a k] rest] eqn:Ht.
    destruct rest; [|done].
    destruct (take_digits_split _ _ _ _ _ _ Ht) as (ds & -> & Hds).
    rewrite app_nil_r. by apply digits_numeral. }
  assert (Hsome : ∀ neg r',
            match take_digits 0 0 r' with
            | (e', n, []) => if 0 <? n then Some (if neg : bool then - e' else e')
                             else None
            | _ => None
            end = Some e →
            match take_digits 0 0 r' with (_, _, []) => True | _ => False end).
  { intros neg r'. destruct (take_digits 0 0 r') as [[a k] rest].
    by destruct rest. }
  destruct r as [|d r']; [by apply Hdigits, (Hsome false)|].
  destruct (decide (d = "+"%char)) as [->|Hplus].
  { constructor; [done|]. by apply Hdigits, (Hsome false). }
  destruct (decide (d = "-"%char)) as [->|Hminus].
  { constructor; [done|]. by apply Hdigits, (Hsome true). }
  apply Hdigits, (Hsome false).
  revert He. destruct d as [[] [] [] [] [] [] [] []]; try done.
Qed.

Lemma float_number_numeral neg l lit :
  float_number neg l = Some lit → Forall (λ c, (43 <= N_of_ascii c)%N) l.
Proof.
  unfold float_number.
  destruct (take_digits 0 0 l) as [[ip ni] r] eqn:Hip.
  destruct (take_digits_split _ _ _ _ _ _ Hip) as (ds & -> & Hds).
  intros Hlit. apply Forall_app. split; [by apply digits_numeral|].
  assert (Hfrac : ∀ r', (let '(m, nf, r0) := take_digits ip 0 r' in
                         if 0 <? ni + nf
                         then float_exponent r0 ≫= λ e, Some (LitDec neg m (e - nf))
                         else None) = Some lit →
                        Forall (λ c, (43 <= N_of_ascii c)%N) r').
  { intros r' Hr'. destruct (take_digits ip 0 r') as [[m nf] r0] eqn:Hm.
    destruct (take_digits_split _ _ _ _ _ _ Hm) as (fs & -> & Hfs).
    apply Forall_app. split; [by apply digits_numeral|].
    destruct (0 <? ni + nf); [|done].
    destruct (float_exponent r0) as [e|] eqn:He; [|done].
    by eapply float_exponent_numeral. }
  assert (Hnone : (if 0 <? ni + 0
                   then float_exponent r ≫= λ e, Some (LitDec neg ip (e - 0))
                   else None) = Some lit →
                  Forall (λ c, (43 <= N_of_ascii c)%N) r).
  { destruct (0 <? ni + 0); [|done].
    destruct (float_exponent r) as [e|] eqn:He; [|done].
    intros _. by eapply float_exponent_numeral. }
  destruct r as [|d r']; [by apply Hnone|].
  destruct (decide (d = "."%char)) as [->|Hpoint].
  { constructor; [done|]. by apply Hfrac. }
  apply Hnone. revert Hlit. destruct d as [[] [] [] [] [] [] [] []]; try done.
Qed.

Lemma word_numeral l w :
  Forall (λ c, (43 <= N_of_ascii c)%N) (list_ascii_of_string w) →
  String.eqb (lower_string l) w = true →
  Forall (λ c, (43 <= N_of_ascii c)%N) l.
Proof.
  intros Hw Heq. apply String.eqb_eq in Heq. subst w.
  unfold lower_string in Hw. rewrite list_ascii_of_string_of_list_ascii in Hw.
  induction l as [|c l IH]; [done|].
  simpl in Hw. apply Forall_cons in Hw as [Hc Hl].
  constructor; [by apply lower_numeral_char|auto].
Qed.

Lemma float_unsigned_numeral neg l lit :
  float_unsigned neg l = Some lit → Forall (λ c, (43 <= N_of_ascii c)%N) l.
Proof.
  unfold float_unsigned.
  destruct (String.eqb (lower_string l) "inf") eqn:Hinf.
  { intros _. eapply word_numeral; [|exact Hinf]. by repeat constructor. }
  destruct (String.eqb (lower_string l) "infinity") eqn:Hinfinity.
  { intros _. eapply word_numeral; [|exact Hinfinity]. by repeat constructor. }
  destruct (String.eqb (lower_string l) "nan") eqn:Hnan.
  { intros _. eapply word_numeral; [|exact Hnan]. by repeat constructor. }
  simpl. apply float_number_numeral.
Qed.

Lemma drop_underscores_numeral l : ∀ prev l',
  drop_underscores prev l = Some l' →
  Forall (λ c, (43 <= N_of_ascii c)%N) l' →
  Forall (λ c, (43 <= N_of_ascii c)%N) l.
Proof.
  induction l as [|c l IH]; intros prev l' Hl Hall; [done|].
  simpl in Hl. destruct (Ascii.eqb_spec c "_") as [->|Hc].
  - destruct (is_digit prev); [|done]. constructor; [done|]. by eapply IH.
  - destruct (Ascii.eqb prev "_" && negb (is_digit c)); [done|].
    destruct (drop_underscores c l) as [r|] eqn:Hr; [|done].
    injection Hl as <-. apply Forall_cons in Hall as [Hc' Hr'].
    constructor; [done|]. by eapply IH.
Qed.

Lemma py_float_chars_numeral l lit :
  py_float_chars l = Some lit → Forall (λ c, (43 <= N_of_ascii c)%N) l.
Proof.
  unfold py_float_chars.
  destruct (drop_underscores "000" l) as [l'|] eqn:Hl; [|done]. simpl.
  intros Hlit. eapply drop_underscores_numeral; [exact Hl|].
  destruct l' as [|c r]; [by constructor|].
  destruct (decide (c = "+"%char)) as [->|Hplus].
  { constructor; [done|]. by eapply float_unsigned_numeral. }
  destruct (decide (c = "-"%char)) as [->|Hminus].
  { constructor; [done|]. by eapply float_unsigned_numeral. }
  eapply (float_unsigned_numeral false).
  revert Hlit. destruct c as [[] [] [] [] [] [] [] []]; try done.
Qed.

(** A separator, 28 to 31, is white space for [str.strip] and for neither
    [int] nor [float]: a text that holds one is no numeral. *)
Lemma separator_is_no_space c :
  (28 <= N_of_ascii c <= 31)%N → py_isspace c = true ∧ Py_ISSPACE c = false.
Proof.
  unfold py_isspace, Py_ISSPACE. intros Hc. split.
  - apply orb_true_iff. right. apply andb_true_iff. split; apply N.leb_le; lia.
  - apply orb_false_iff. split.
    + apply andb_false_iff. right. apply N.leb_gt. lia.
    + apply N.eqb_neq. lia.
Qed.

Lemma separator_is_no_numeral s c :
  (28 <= N_of_ascii c <= 31)%N → c ∈ list_ascii_of_string s →
  py_int s = None ∧ py_float s = None.
Proof.
  intros Hc Hin. destruct (separator_is_no_space c Hc) as [_ Hspace].
  pose proof (numeral_chars_keeps c _ Hspace Hin) as Hkept.
  split.
  - unfold py_int. destruct (_ <? _)%nat; [done|].
    destruct (py_int_chars _) as [z|] eqn:Hz; [|done].
    apply py_int_chars_numeral in Hz.
    rewrite Forall_forall in Hz. specialize (Hz c Hkept). lia.
  - unfold py_float.
    destruct (py_float_chars _) as [lit|] eqn:Hlit; [|done].
    apply py_float_chars_numeral in Hlit.
    rewrite Forall_forall in Hlit. specialize (Hlit c Hkept). lia.
Qed.

(** [x.is_integer()] on a finite double [m * 2^e]: the exponent is not
    negative, or the mantissa is a multiple of [2^(-e)]. *)
Lemma is_integer_finite s m e :
  is_integer (S754_finite s m e) = true ↔ 0 <= e ∨ (2 ^ (- e) | Z.pos m).
Proof.
  simpl. destruct (Z.leb_spec 0 e) as [He|He].
  - split; [by left|done].
  - rewrite Z.eqb_eq. split.
    + intros Hm. right. apply Z.mod_divide; [|done].
      apply Z.pow_nonzero; lia.
    + intros [?|Hd]; [lia|]. apply Z.mod_divide; [|done].
      apply Z.pow_nonzero; lia.
Qed.

(** * The type predicate *)

(** Case analysis on what the branches of [_check_data_type] inspect. *)
Ltac check_cases :=
  simpl;
  repeat match goal with
    | |- context [String.eqb ?cls "float64"] =>
        destruct (String.eqb cls "float64"); simpl
    | |- context [py_int ?s] => destruct (py_int s); simpl
    | |- context [py_float ?s] => destruct (py_float s); simpl
    end;
  rewrite ?orb_false_r, ?orb_true_r; try done.

Lemma check_known_pure v ty :
  recognized ty = true → (_check_data_type v ty).2 = [].
Proof.
  unfold recognized, _check_data_type. intros Hty.
  destruct (String.eqb ty "int"); [destruct v; check_cases|].
  destruct (String.eqb ty "float"); [destruct v; check_cases|].
  destruct (String.eqb ty "str"); [done|].
  destruct (String.eqb ty "bool"); done.
Qed.

Lemma check_unknown v ty :
  recognized ty = false →
  _check_data_type v ty = (true, ["Unknown data type: " +:+ ty]).
Proof.
  unfold recognized, _check_data_type. intros Hty.
  destruct (String.eqb ty "int"); [done|].
  destruct (String.eqb ty "float"); [done|].
  destruct (String.eqb ty "str"); [done|].
  destruct (String.eqb ty "bool"); done.
Qed.

Lemma check_table v ty :
  (_check_data_type v ty).1
  = table_accepts ty v
    || builtin_bool v && (String.eqb ty "int" || String.eqb ty "float")
    || native_complex v && String.eqb ty "float".
Proof.
  unfold _check_data_type, table_accepts.
  destruct (String.eqb_spec ty "int") as [->|_]; [destruct v; check_cases|].
  destruct (String.eqb_spec ty "float") as [->|_]; [destruct v; check_cases|].
  destruct (String.eqb_spec ty "str") as [->|_]; [destruct v; check_cases|].
  destruct (String.eqb_spec ty "bool") as [->|_]; [destruct v; check_cases|].
  by rewrite !andb_false_r.
Qed.

(** * Appending findings *)

Lemma extend_with_nothing r : extend_with r (findings [] [] []) = r.
Proof. destruct r. unfold extend_with. simpl. by rewrite !app_nil_r. Qed.

Lemma add_error_findings r msg col i v :
  add_error r msg col i v = extend_with r (findings [error_entry msg col i v] [] []).
Proof. unfold add_error, extend_with. simpl. by rewrite !app_nil_r. Qed.

Lemma add_warning_findings r msg col i v :
  add_warning r msg col i v
  = extend_with r (findings [] [warning_entry msg col i v] []).
Proof. unfold add_warning, extend_with. simpl. by rewrite !app_nil_r. Qed.

Lemma add_passed_findings r msg col i :
  add_passed r msg col i = extend_with r (findings [] [] [passed_entry msg col i]).
Proof. unfold add_passed, extend_with. simpl. by rewrite !app_nil_r. Qed.

Lemma foldl_findings {X} (f : ValidationResult → X → ValidationResult)
    (g : X → ValidationResult) (l : list X) :
  (∀ r x, f r x = extend_with r (g x)) →
  ∀ r, foldl f r l
       = extend_with r (findings (flat_map (errors ∘ g) l)
                                 (flat_map (warnings ∘ g) l)
                                 (flat_map (passed ∘ g) l)).
Proof.
  intros Hf. induction l as [|x l IH]; intros r; simpl.
  - by rewrite extend_with_nothing.
  - rewrite Hf, IH. unfold extend_with. simpl. by rewrite <- !app_assoc.
Qed.

Lemma foldl_logged {X} (f : Logged ValidationResult → X → Logged ValidationResult)
    (g : X → ValidationResult) (h : X → list string) (l : list X) :
  (∀ st x, f st x = (extend_with st.1 (g x), st.2 ++ h x)) →
  ∀ st, foldl f st l
        = (extend_with st.1 (findings (flat_map (errors ∘ g) l)
                                      (flat_map (warnings ∘ g) l)
                                      (flat_map (passed ∘ g) l)),
           st.2 ++ flat_map h l).
Proof.
  intros Hf. induction l as [|x l IH]; intros [r lg]; simpl.
  - by rewrite extend_with_nothing, app_nil_r.
  - rewrite Hf, IH. unfold extend_with. simpl. by rewrite <- !app_assoc.
Qed.

Lemma flat_map_singleton {A B} (f : A → B) (l : list A) :
  flat_map (λ x, [f x]) l = map f l.
Proof. induction l as [|x l IH]; simpl; [done|]. by rewrite IH. Qed.

Lemma flat_map_nothing {A B} (l : list A) :
  flat_map (λ _, @nil B) l = [].
Proof. by induction l. Qed.

Lemma flat_map_nil {A B} (g : A → list B) (l : list A) :
  (∀ a, a ∈ l → g a = []) → flat_map g l = [].
Proof.
  induction l as [|a l IH]; intros Hg; simpl; [done|].
  rewrite Hg, IH; [done| |apply elem_of_cons; by left].
  intros b Hb. apply Hg, elem_of_cons. by right.
Qed.

(** * Row labels *)

Lemma mask_index_lb k m i : i ∈ mask_index k m → (k <= i)%nat.
Proof.
  revert k. induction m as [|b m IH]; intros k; simpl.
  - intros Hi. by apply elem_of_nil in Hi.
  - destruct b.
    + intros [->|Hi]%elem_of_cons; [lia|]. apply IH in Hi. lia.
    + intros Hi. apply IH in Hi. lia.
Qed.

Lemma mask_index_sorted k m : StronglySorted lt (mask_index k m).
Proof.
  revert k. induction m as [|b m IH]; intros k; simpl; [constructor|].
  destruct b; [|apply IH].
  constructor; [apply IH|].
  apply Forall_forall. intros i Hi. apply mask_index_lb in Hi. lia.
Qed.

Lemma elem_of_mask_index k m i :
  i ∈ mask_index k m ↔ ∃ j, i = (k + j)%nat ∧ m !! j = Some true.
Proof.
  revert k. induction m as [|b m IH]; intros k; simpl.
  - split; [intros Hi; by apply elem_of_nil in Hi|]. by intros (j & _ & ?).
  - assert (Hrest : i ∈ mask_index (S k) m
                    ↔ ∃ j, i = (k + S j)%nat ∧ m !! j = Some true).
    { rewrite IH. split; intros (j & -> & Hj); exists j; (split; [lia|done]). }
    destruct b.
    + rewrite elem_of_cons, Hrest. split.
      * intros [->|(j & -> & Hj)]; [exists 0%nat|exists (S j)]; (split; [lia|done]).
      * intros ([|j] & -> & Hj); [left; lia|right; eauto].
    + rewrite Hrest. split.
      * intros (j & -> & Hj). exists (S j). done.
      * intros ([|j] & -> & Hj); [done|eauto].
Qed.

Lemma elem_of_mask_index_0 (m : list bool) (i : nat) :
  i ∈ mask_index 0 m ↔ m !! i = Some true.
Proof.
  rewrite elem_of_mask_index. split; [by intros (j & -> & ?)|]. eauto.
Qed.

Lemma sorted_lt_NoDup (l : list nat) : StronglySorted lt l → NoDup l.
Proof.
  induction 1 as [|x l Hs IH Hall]; constructor; [|done].
  intros Hx. rewrite Forall_forall in Hall. specialize (Hall _ Hx). lia.
Qed.

(** Two masks that never hold together select at most all rows. *)
Lemma mask_index_disjoint_length k (m1 m2 : list bool) :
  (length (mask_index k m1)
   + length (mask_index k (zip_with andb m2 (map negb m1))) <= length m1)%nat.
Proof.
  revert k m2. induction m1 as [|b m1 IH]; intros k m2; simpl.
  - destruct m2; simpl; lia.
  - destruct m2 as [|c m2]; simpl.
    + destruct b; simpl; specialize (IH (S k) []); destruct m1; simpl in *; lia.
    + specialize (IH (S k) m2).
      destruct b, c; simpl; lia.
Qed.

Lemma items_from_fst_lb k l p : p ∈ items_from k l → (k <= p.1)%nat.
Proof.
  revert k. induction l as [|v l IH]; intros k; simpl.
  - intros Hp. by apply elem_of_nil in Hp.
  - intros [->|Hp]%elem_of_cons; [simpl; lia|]. apply IH in Hp. lia.
Qed.

Lemma items_from_filter_sorted k l (P : nat * PyValue → Prop) `{∀ p, Decision (P p)} :
  StronglySorted lt (map fst (filter P (items_from k l))).
Proof.
  revert k. induction l as [|v l IH]; intros k; simpl; [constructor|].
  rewrite filter_cons. destruct (decide (P (k, v))); [|apply IH].
  simpl. constructor; [apply IH|].
  apply Forall_forall. intros i Hi.
  apply list_elem_of_In, in_map_iff in Hi as (q & <- & Hq).
  apply list_elem_of_In in Hq.
  apply list_elem_of_filter in Hq as [_ Hq]. apply items_from_fst_lb in Hq. lia.
Qed.

Lemma lookup_map {A B} (f : A → B) (l : list A) (i : nat) :
  map f l !! i = f <$> l !! i.
Proof.
  revert i. induction l as [|a l IH]; intros [|i]; simpl; done.
Qed.

(** * Filters over findings *)

Lemma filter_map {A B} (P : B → Prop) `{∀ b, Decision (P b)} (f : A → B) (l : list A) :
  filter P (map f l) = map f (filter (λ a, P (f a)) l).
Proof.
  induction l as [|a l IH]; simpl; [done|]. rewrite !filter_cons, IH.
  by destruct (decide (P (f a))).
Qed.

Lemma filter_flat_map {A B} (P : B → Prop) `{∀ b, Decision (P b)}
    (f : A → list B) (l : list A) :
  filter P (flat_map f l) = flat_map (λ a, filter P (f a)) l.
Proof.
  induction l as [|a l IH]; simpl; [done|]. by rewrite filter_app, IH.
Qed.

Lemma filter_none {A} (P : A → Prop) `{∀ a, Decision (P a)} (l : list A) :
  (∀ a, a ∈ l → ¬ P a) → filter P l = [].
Proof.
  induction l as [|a l IH]; intros Hl; [done|]. rewrite filter_cons.
  destruct (decide (P a)) as [Ha|_].
  - destruct (Hl a); [apply elem_of_cons; by left|done].
  - apply IH. intros b Hb. apply Hl, elem_of_cons. by right.
Qed.

Lemma filter_all {A} (P : A → Prop) `{∀ a, Decision (P a)} (l : list A) :
  (∀ a, a ∈ l → P a) → filter P l = l.
Proof.
  induction l as [|a l IH]; intros Hl; [done|]. rewrite filter_cons.
  destruct (decide (P a)) as [_|Ha].
  - f_equal. apply IH. intros b Hb. apply Hl, elem_of_cons. by right.
  - destruct Ha. apply Hl, elem_of_cons. by left.
Qed.

Lemma filter_eq_NoDup {A} `{EqDecision A} (x : A) (l : list A) :
  NoDup l → x ∈ l → filter (λ a, a = x) l = [x].
Proof.
  induction 1 as [|a l Ha Hl IH]; intros Hx; [by apply elem_of_nil in Hx|].
  rewrite filter_cons. destruct (decide (a = x)) as [->|Hne].
  - f_equal. apply filter_none. intros b Hb ->. done.
  - apply IH. apply elem_of_cons in Hx as [->|Hx]; done.
Qed.

Lemma elem_of_labels (t : Series) (l : list Series) :
  t ∈ l → label t ∈ map label l.
Proof. intros Ht. by apply list_elem_of_In, in_map, list_elem_of_In. Qed.

(** Among columns with distinct labels, only the column itself contributes
    what is selected by its label. *)
Lemma flat_map_own_column {B} (g : Series → list B) (l : list Series) (s : Series) :
  NoDup (map label l) → s ∈ l →
  (∀ t, t ∈ l → label t ≠ label s → g t = []) →
  flat_map g l = g s.
Proof.
  induction l as [|t l IH]; intros Hnd Hs Hg; [by apply elem_of_nil in Hs|].
  simpl in *. apply NoDup_cons in Hnd as [Ht Hnd].
  apply elem_of_cons in Hs as [->|Hs].
  - rewrite flat_map_nil; [by rewrite app_nil_r|].
    intros u Hu. apply Hg; [apply elem_of_cons; by right|].
    intros Heq. apply Ht. rewrite <- Heq. by apply elem_of_labels.
  - rewrite (Hg t).
    + simpl. apply IH; [done..|]. intros u Hu. apply Hg, elem_of_cons. by right.
    + apply elem_of_cons. by left.
    + intros Heq. apply Ht. rewrite Heq. by apply elem_of_labels.
Qed.

(** * Sets of column names *)

Lemma set_iter_NoDup `{PyRuntime} (X : gset string) : NoDup (set_iter X).
Proof. rewrite set_iter_perm. apply NoDup_elements. Qed.

Lemma elem_of_set_iter `{PyRuntime} (X : gset string) (x : string) :
  x ∈ set_iter X ↔ x ∈ X.
Proof. rewrite set_iter_perm. apply elem_of_elements. Qed.

Lemma elem_of_missing_columns df req name :
  name ∈ missing_columns df req ↔ name ∈ req ∧ name ∉ columns df.
Proof.
  unfold missing_columns.
  by rewrite elem_of_difference, !elem_of_list_to_set.
Qed.

(** * What each pass appends *)

Section Passes.
Context `{PyRuntime}.

Lemma missing_column_findings df r s :
  missing_column df r s = extend_with r (missing_findings df s).
Proof.
  unfold missing_column.
  rewrite (foldl_findings _ (λ i, findings [empty_error s i] [] []))
    by (intros; apply add_error_findings).
  rewrite (foldl_findings _ (λ i, findings [null_error s i] [] []))
    by (intros; apply add_error_findings).
  unfold compose. simpl. rewrite !flat_map_singleton, !flat_map_nothing.
  fold (valid_count df s). unfold missing_findings.
  destruct (0 <? valid_count df s); unfold extend_with, add_passed; simpl;
    rewrite ?app_nil_r, <- ?app_assoc; done.
Qed.

Lemma detect_missing_values_findings df :
  empty df = false →
  detect_missing_values df
  = findings (flat_map (errors ∘ missing_findings df) (series df)) []
             (flat_map (passed ∘ missing_findings df) (series df)).
Proof.
  intros Hne. unfold detect_missing_values. rewrite Hne.
  rewrite (foldl_findings _ (missing_findings df)) by apply missing_column_findings.
  unfold extend_with, findings, compose. simpl. f_equal.
  apply flat_map_nothing.
Qed.

Lemma type_cell_findings col ty st item :
  type_cell col ty st item
  = (extend_with st.1 (cell_findings col ty item), st.2 ++ cell_log ty item).
Proof.
  destruct st as [r lg], item as [i v].
  unfold type_cell, cell_findings, cell_log. simpl.
  destruct (_check_data_type v ty) as [[] out]; simpl.
  - by rewrite add_passed_findings.
  - by rewrite add_error_findings.
Qed.

Lemma cell_findings_no_warning col ty (cells : list (nat * PyValue)) :
  flat_map (warnings ∘ cell_findings col ty) cells = [].
Proof.
  induction cells as [|c cells IH]; simpl; [done|]. rewrite IH.
  unfold compose, cell_findings. by destruct (_check_data_type c.2 ty).1.
Qed.

Lemma type_rule_findings df st rule :
  type_rule df st rule
  = (extend_with st.1 (rule_findings df rule), st.2 ++ rule_log df rule).
Proof.
  destruct rule as [col ty]. unfold type_rule, rule_findings, rule_log. simpl.
  destruct (getitem df col) as [s|];
    [|by rewrite app_nil_r, add_error_findings].
  destruct (dropna s) as [|c cells] eqn:Hcells;
    [by rewrite app_nil_r, add_warning_findings|].
  rewrite (foldl_logged _ (cell_findings col ty) (cell_log ty))
    by apply type_cell_findings.
  by rewrite cell_findings_no_warning.
Qed.

Lemma validate_data_types_findings df type_rules :
  validate_data_types df type_rules
  = (findings (flat_map (errors ∘ rule_findings df) type_rules)
              (flat_map (warnings ∘ rule_findings df) type_rules)
              (flat_map (passed ∘ rule_findings df) type_rules),
     flat_map (rule_log df) type_rules).
Proof.
  unfold validate_data_types.
  rewrite (foldl_logged _ (rule_findings df) (rule_log df))
    by apply type_rule_findings.
  done.
Qed.

Lemma presence_findings_passed df req :
  flat_map (passed ∘ presence_findings df) req
  = map column_present (filter (λ col, col ∈ columns df) req).
Proof.
  induction req as [|c req IH]; simpl; [done|]. rewrite IH, filter_cons.
  unfold compose, presence_findings.
  destruct (decide (c ∈ columns df)) as [Hc|Hc].
  - by rewrite bool_decide_true.
  - by rewrite bool_decide_false.
Qed.

Lemma presence_findings_errors df req :
  flat_map (errors ∘ presence_findings df) req = []
  ∧ flat_map (warnings ∘ presence_findings df) req = [].
Proof.
  induction req as [|c req [IHe IHw]]; simpl; [done|]. rewrite IHe, IHw.
  unfold compose, presence_findings.
  by destruct (bool_decide (c ∈ columns df)).
Qed.

Lemma _validate_required_columns_findings df req r :
  _validate_required_columns df req r = extend_with r (required_findings df req).
Proof.
  unfold _validate_required_columns.
  rewrite (foldl_findings _ (presence_findings df)).
  2:{ intros r0 col. unfold presence_findings.
      destruct (bool_decide (col ∈ columns df)).
      - apply add_passed_findings.
      - by rewrite extend_with_nothing. }
  rewrite (foldl_findings _ (λ col, findings [column_missing col] [] []))
    by (intros; apply add_error_findings).
  rewrite presence_findings_passed.
  destruct (presence_findings_errors df req) as [-> ->].
  unfold compose. simpl. rewrite !flat_map_singleton, !flat_map_nothing.
  unfold extend_with, required_findings, missing_columns. simpl.
  by rewrite !app_nil_r.
Qed.

Lemma validate_frame_passes path df rules :
  empty df = false →
  validate_frame path df rules
  = (extend_with
       (extend_with (extend_with (new_result path) (required_part df rules))
                    (detect_missing_values df))
       (type_part df rules).1,
     (type_part df rules).2).
Proof.
  intros Hne. unfold validate_frame, required_part, type_part. rewrite Hne.
  assert (Hreq : match required_columns rules with
                 | Some req => _validate_required_columns df req (new_result path)
                 | None => new_result path
                 end
                 = extend_with (new_result path)
                     match required_columns rules with
                     | Some req => required_findings df req
                     | None => findings [] [] []
                     end).
  { destruct (required_columns rules).
    - apply _validate_required_columns_findings.
    - by rewrite extend_with_nothing. }
  rewrite Hreq. destruct (data_types rules) as [tr|].
  - by destruct (validate_data_types df tr).
  - unfold ret. simpl. by rewrite extend_with_nothing.
Qed.

(** ** The missing-value check, column by column *)

Lemma missing_findings_column df t e :
  e ∈ errors (missing_findings df t) ∨ e ∈ passed (missing_findings df t) →
  column e = label t.
Proof.
  unfold missing_findings. simpl. intros [He|He].
  - apply elem_of_app in He as [He|He];
      apply list_elem_of_In, in_map_iff in He as (i & <- & _); done.
  - destruct (0 <? valid_count df t); [|by apply elem_of_nil in He].
    apply list_elem_of_singleton in He as ->. done.
Qed.

(** What the missing-value check reports on one column, selected by a
    predicate that fixes the column. *)
Lemma missing_errors_of_column df s (P : ValidationEntry → Prop)
    `{∀ e, Decision (P e)} :
  well_formed df → empty df = false → s ∈ series df →
  (∀ e, P e → column e = label s) →
  filter P (errors (detect_missing_values df))
  = filter P (errors (missing_findings df s)).
Proof.
  intros [_ Hnd] Hne Hs HP. rewrite detect_missing_values_findings by done.
  simpl. rewrite filter_flat_map.
  apply (flat_map_own_column (λ t, filter P ((errors ∘ missing_findings df) t)));
    [done..|].
  intros t _ Hlabel. apply filter_none. intros e He HPe.
  apply Hlabel. rewrite <- (HP e HPe). symmetry.
  apply (missing_findings_column df). by left.
Qed.

Lemma missing_passed_of_column df s (P : ValidationEntry → Prop)
    `{∀ e, Decision (P e)} :
  well_formed df → empty df = false → s ∈ series df →
  (∀ e, P e → column e = label s) →
  filter P (passed (detect_missing_values df))
  = filter P (passed (missing_findings df s)).
Proof.
  intros [_ Hnd] Hne Hs HP. rewrite detect_missing_values_findings by done.
  simpl. rewrite filter_flat_map.
  apply (flat_map_own_column
           (λ t, filter P ((passed ∘ missing_findings df) t)));
    [done..|].
  intros t _ Hlabel. apply filter_none. intros e He HPe.
  apply Hlabel. rewrite <- (HP e HPe). symmetry.
  apply (missing_findings_column df). by right.
Qed.

Lemma null_cell_in_null_indices s i v :
  values s !! i = Some v → isnull v = true → i ∈ null_indices s.
Proof.
  intros Hv Hnull. apply elem_of_mask_index_0.
  by rewrite lookup_map, Hv; simpl; rewrite Hnull.
Qed.

Lemma null_cell_not_in_empty_indices s i v :
  values s !! i = Some v → isnull v = true → i ∉ empty_indices s.
Proof.
  intros Hv Hnull. unfold empty_indices.
  destruct (is_object (dtype_of s)); [|apply not_elem_of_nil].
  rewrite elem_of_mask_index_0, lookup_zip_with, !lookup_map, Hv. simpl.
  rewrite Hnull, andb_false_r. done.
Qed.

Lemma null_indices_sorted s : StronglySorted lt (null_indices s).
Proof. apply mask_index_sorted. Qed.

Lemma empty_indices_sorted s : StronglySorted lt (empty_indices s).
Proof.
  unfold empty_indices. destruct (is_object (dtype_of s)); [|constructor].
  apply mask_index_sorted.
Qed.

(** No more cells are missing than the column has. *)
Lemma missing_at_most_all s :
  (length (null_indices s) + length (empty_indices s) <= length (values s))%nat.
Proof.
  unfold null_indices, empty_indices.
  destruct (is_object (dtype_of s)).
  - pose proof (mask_index_disjoint_length 0 (map isnull (values s))
                  (map (λ v, String.eqb (strip (astype_str v)) "") (values s)))
      as Hle.
    by rewrite length_map in Hle.
  - pose proof (mask_index_disjoint_length 0 (map isnull (values s)) []) as Hle.
    rewrite length_map in Hle. simpl in *. lia.
Qed.

(** ** Rows of the entries *)

Lemma rows_of_null_errors s (l : list nat) : omap row (map (null_error s) l) = l.
Proof. induction l as [|i l IH]; [done|]. simpl. f_equal. exact IH. Qed.

Lemma rows_of_empty_errors s (l : list nat) : omap row (map (empty_error s) l) = l.
Proof. induction l as [|i l IH]; [done|]. simpl. f_equal. exact IH. Qed.

Lemma rows_of_cell_errors col ty (cells : list (nat * PyValue)) :
  omap row (flat_map (errors ∘ cell_findings col ty) cells)
  = map fst (filter (λ c, (_check_data_type c.2 ty).1 = false) cells).
Proof.
  induction cells as [|c cells IH]; simpl; [done|].
  rewrite omap_app, IH, filter_cons. unfold compose, cell_findings.
  by destruct (_check_data_type c.2 ty).1.
Qed.

Lemma rows_of_cell_passed col ty (cells : list (nat * PyValue)) :
  omap row (flat_map (passed ∘ cell_findings col ty) cells)
  = map fst (filter (λ c, (_check_data_type c.2 ty).1 = true) cells).
Proof.
  induction cells as [|c cells IH]; simpl; [done|].
  rewrite omap_app, IH, filter_cons. unfold compose, cell_findings.
  by destruct (_check_data_type c.2 ty).1.
Qed.

Lemma rule_findings_in_row_order df rule :
  in_row_order (errors (rule_findings df rule))
  ∧ in_row_order (passed (rule_findings df rule)).
Proof.
  unfold in_row_order, rule_findings.
  destruct (getitem df rule.1) as [s|]; [|split; constructor].
  destruct (dropna s) as [|c cells] eqn:Hcells; [split; constructor|].
  rewrite <- Hcells. simpl.
  rewrite rows_of_cell_errors, rows_of_cell_passed.
  unfold dropna, items. rewrite !list_filter_filter.
  split; apply items_from_filter_sorted.
Qed.

End Passes.

(** * The claims *)

(** C1, the claim as stated fails: the built-in boolean [True] passes [int],
    although it is no native integer, no floating value and no text. *)
Lemma type_table_rejects_true_but_code_accepts :
  (_check_data_type (PyBool true) "int").1 = true
  ∧ table_accepts "int" (PyBool true) = false.
Proof. split; reflexivity. Qed.

(** C1, as amended: the type predicate is the table of section 4.2c, except
    that a built-in boolean also passes [int] and [float] and a complex
    number of numpy also passes [float].  So away from the built-in booleans
    and the complex numbers the predicate is exactly the table: [int]
    accepts a native integer, a floating value without fractional part, or
    a text that parses as a base-10 integer (which never holds a decimal
    point); [float] accepts a native integer, a floating value or a text
    that parses as a float; [str] accepts text only; [bool] accepts native
    booleans; under these four tags nothing is logged, and a text that does
    not parse makes the predicate fail and nothing else.  A text parses as
    [int(s)] and [float(s)] read ASCII text: white space of C around the
    numeral, so that a text with one of the separators 28 to 31 fails both
    tags, and at most 4300 digits for [int].  In particular 30.0 and "30"
    pass [int], "3.5" fails [int] and passes [float], and no number passes
    [str]. *)
Theorem type_predicate_table :
  (∀ v ty, (_check_data_type v ty).1
           = table_accepts ty v
             || builtin_bool v && (String.eqb ty "int" || String.eqb ty "float")
             || native_complex v && String.eqb ty "float")
  ∧ (∀ v ty, builtin_bool v = false → native_complex v = false →
             (_check_data_type v ty).1 = table_accepts ty v)
  ∧ (∀ v ty, recognized ty = true → (_check_data_type v ty).2 = [])
  ∧ (∀ s, py_int s = None → _check_data_type (PyStr s) "int" = (false, []))
  ∧ (∀ s, py_float s = None → _check_data_type (PyStr s) "float" = (false, []))
  ∧ (∀ s z, py_int s = Some z → "."%char ∉ list_ascii_of_string s)
  ∧ _check_data_type (PyFloat f30) "int" = (true, [])
  ∧ _check_data_type (PyStr "30") "int" = (true, [])
  ∧ _check_data_type (PyStr "3.5") "int" = (false, [])
  ∧ _check_data_type (PyStr "3.5") "float" = (true, [])
  ∧ (∀ s c, (28 <= N_of_ascii c <= 31)%N → c ∈ list_ascii_of_string s →
            _check_data_type (PyStr s) "int" = (false, [])
            ∧ _check_data_type (PyStr s) "float" = (false, []))
  ∧ (∀ s, (int_max_str_digits < count_digits (list_ascii_of_string s))%nat →
          _check_data_type (PyStr s) "int" = (false, []))
  ∧ (∀ v, native_complex v = true →
          _check_data_type v "float" = (true, [])
          ∧ table_accepts "float" v = false
          ∧ _check_data_type v "int" = (false, []))
  ∧ (∀ v, native_numeric v = true →
          _check_data_type v "str" = (false, [])).
Proof.
  split; [apply check_table|].
  split. { intros v ty Hv Hc. rewrite check_table, Hv, Hc. by rewrite !orb_false_r. }
  split; [apply check_known_pure|].
  split. { intros s Hs. unfold _check_data_type. simpl. by rewrite Hs. }
  split. { intros s Hs. unfold _check_data_type. simpl. by rewrite Hs. }
  split; [apply py_int_no_point|].
  repeat (split; [reflexivity|]).
  split.
  { intros s c Hc Hin.
    destruct (separator_is_no_numeral s c Hc Hin) as [Hint Hfloat].
    unfold _check_data_type. simpl. by rewrite Hint, Hfloat. }
  split.
  { intros s Hmany. unfold _check_data_type. simpl.
    by rewrite (py_int_limit s Hmany). }
  split; [intros v Hv; by destruct v|].
  intros v Hv. by destruct v.
Qed.

(** C2, the claim as stated fails: the type check on column [name] yields
    three passed entries, the third for the empty text of row 2. *)
Lemma scenario_name_has_three_passed :
  filter (λ e, column e = "name")
         (passed (validate_data_types scenario_table scenario_types).1)
  = [valid_value "name" "str" 0; valid_value "name" "str" 1;
     valid_value "name" "str" 2].
Proof. reflexivity. Qed.

(** C2, as amended: on the scenario the missing-value check reports the null
    of [id] and the empty text of [name], both at row 2, and two valid
    values per column; the type check passes rows 0 and 1 of [id] (row 2 is
    dropped as null) and rows 0, 1 and 2 of [name]: only null cells are
    dropped before the type check, and the empty text is a text. *)
Theorem scenario_result `{PyRuntime} (path : string) :
  validate_frame path scenario_table scenario_rules
  = ({| source_file := path;
        errors :=
          [ error_entry "Missing value (null/NaN)" "id" (Some 2%nat) None;
            error_entry "Missing value (empty string)" "name" (Some 2%nat) None ];
        warnings := [];
        passed :=
          [ passed_entry "2 valid values" "id" None;
            passed_entry "2 valid values" "name" None;
            valid_value "id" "int" 0; valid_value "id" "int" 1;
            valid_value "name" "str" 0; valid_value "name" "str" 1;
            valid_value "name" "str" 2 ] |}, []).
Proof. reflexivity. Qed.

(** C3, the claim as stated fails: a column whose tag is not recognized gets
    a passed entry for its cell. *)
Lemma unrecognized_tag_adds_entries :
  recognized "date" = false
  ∧ validate_data_types tagged_table [("when", "date")]
    = (findings [] [] [valid_value "when" "date" 0],
       ["Unknown data type: date"]).
Proof. split; reflexivity. Qed.

(** C3, as amended: for a column of the table whose tag is outside
    [int], [float], [str], [bool], every cell that is not null is accepted:
    it gets a passed entry "Valid <tag> value" and one diagnostic is logged
    for it; no error is added for the column, and a column without any
    non-null cell gets the usual warning instead. *)
Theorem unrecognized_tag_passes_every_cell
    (df : DataFrame) (st : Logged ValidationResult) (col ty : string) (s : Series) :
  recognized ty = false →
  getitem df col = Some s →
  type_rule df st (col, ty)
  = (extend_with st.1
       match dropna s with
       | [] => findings []
                 [warning_entry "Column contains only missing values" col None None] []
       | cells => findings [] [] (map (λ c, valid_value col ty c.1) cells)
       end,
     st.2 ++ map (λ _, "Unknown data type: " +:+ ty) (dropna s)).
Proof.
  intros Hty Hs. rewrite type_rule_findings.
  unfold rule_findings, rule_log. simpl. rewrite Hs.
  assert (Hcell : ∀ c : nat * PyValue,
            cell_findings col ty c = findings [] [] [valid_value col ty c.1]
            ∧ cell_log ty c = ["Unknown data type: " +:+ ty]).
  { intros c. unfold cell_findings, cell_log. by rewrite check_unknown. }
  assert (Hall : ∀ cells : list (nat * PyValue),
            flat_map (errors ∘ cell_findings col ty) cells = []
            ∧ flat_map (passed ∘ cell_findings col ty) cells
              = map (λ c, valid_value col ty c.1) cells
            ∧ flat_map (cell_log ty) cells
              = map (λ _, "Unknown data type: " +:+ ty) cells).
  { induction cells as [|c cells (IHe & IHp & IHl)]; simpl; [done|].
    unfold compose in *. destruct (Hcell c) as [-> ->]. simpl.
    by rewrite IHe, IHp, IHl. }
  destruct (Hall (dropna s)) as (He & Hp & Hl). rewrite Hl. clear Hall Hcell Hl.
  destruct (dropna s) as [|c cells]; [done|].
  simpl in *. by rewrite He, Hp.
Qed.

(** The theorem on a column of dates tagged [date]. *)
Lemma unrecognized_tag_witness :
  recognized "date" = false
  ∧ type_rule tagged_table (new_result "", []) ("when", "date")
    = (findings [] [] [valid_value "when" "date" 0],
       ["Unknown data type: date"]).
Proof.
  split; [reflexivity|].
  apply (unrecognized_tag_passes_every_cell tagged_table (new_result "", [])
           "when" "date"
           {| label := "when"; dtype_of := object_;
              values := [PyStr "2024-01-01"; PyNone] |});
    reflexivity.
Defined.

(** C4: when the loaded table has no rows, whatever the rules, the result
    holds exactly one warning, "File contains no data" with an empty column
    name, no error and no passed entry; none of the three checks has run
    (nothing is logged either). *)
Theorem no_rows_one_warning `{PyRuntime}
    (fs : FileSystem) (path : string) (rules : RuleSet) (df : DataFrame) :
  load fs path = Returned df →
  len df = 0%nat →
  validate_file fs path rules = Returned (no_data path, []).
Proof.
  intros Hload Hlen. unfold validate_file. rewrite Hload.
  unfold validate_frame, empty. by rewrite Hlen.
Qed.

(** The theorem on a file with a header line only. *)
Lemma no_rows_witness :
  load (files [("empty.csv", header_only)]) "empty.csv" = Returned header_only
  ∧ len header_only = 0%nat
  ∧ @validate_file example_runtime (files [("empty.csv", header_only)]) "empty.csv"
      {| required_columns := Some ["id"; "name"];
         data_types := Some [("id", "int")] |}
    = Returned (no_data "empty.csv", []).
Proof.
  split; [reflexivity|]. split; [reflexivity|].
  apply (@no_rows_one_warning example_runtime _ _ _ header_only); reflexivity.
Defined.

(** C5: a null cell gets, from the missing-value check, exactly one error at
    its column and row, the error "Missing value (null/NaN)"; the cell is
    not classified as empty-missing, so no "Missing value (empty string)"
    error is added for it. *)
Theorem null_cell_one_error `{PyRuntime}
    (df : DataFrame) (s : Series) (i : nat) (v : PyValue) :
  well_formed df → empty df = false → s ∈ series df →
  values s !! i = Some v → isnull v = true →
  filter (λ e, column e = label s ∧ row e = Some i)
         (errors (detect_missing_values df))
  = [error_entry "Missing value (null/NaN)" (label s) (Some i) None]
  ∧ i ∉ empty_indices s.
Proof.
  intros Hwf Hne Hs Hv Hnull.
  split; [|by eapply null_cell_not_in_empty_indices].
  rewrite (missing_errors_of_column df s) by (done || by intros e [? _]).
  unfold missing_findings. simpl. rewrite filter_app, !filter_map.
  rewrite (filter_none _ (empty_indices s)), app_nil_r.
  2:{ intros j Hj [_ [= ->]]. by eapply null_cell_not_in_empty_indices. }
  change [error_entry "Missing value (null/NaN)" (label s) (Some i) None]
    with (map (null_error s) [i]).
  f_equal. rewrite <- (filter_eq_NoDup i (null_indices s)).
  - apply list_filter_iff. intros j. simpl. split; [by intros [_ [= ->]]|by intros ->].
  - apply sorted_lt_NoDup, null_indices_sorted.
  - by eapply null_cell_in_null_indices.
Qed.

(** The theorem on the null of column [id] in the scenario table. *)
Lemma null_cell_witness :
  well_formed scenario_table ∧ empty scenario_table = false
  ∧ filter (λ e, column e = "id" ∧ row e = Some 2%nat)
           (errors (@detect_missing_values example_runtime scenario_table))
    = [error_entry "Missing value (null/NaN)" "id" (Some 2%nat) None].
Proof.
  assert (Hwf : well_formed scenario_table).
  { split; [repeat constructor|]. simpl.
    apply NoDup_cons. split; [|apply NoDup_singleton].
    by intros [=]%list_elem_of_singleton. }
  split; [exact Hwf|]. split; [reflexivity|].
  apply (@null_cell_one_error example_runtime scenario_table
           {| label := "id"; dtype_of := float64;
              values := [PyFloat f1; PyFloat f2; PyFloat S754_nan] |}
           2%nat (PyFloat S754_nan) Hwf);
    [reflexivity|apply elem_of_cons; by left|reflexivity|reflexivity].
Defined.

(** C6, the claim as stated fails: in a column with a blank text at row 0
    and a null at row 1, the error of row 1 comes before the error of
    row 0. *)
Lemma missing_errors_out_of_row_order :
  @validate_file example_runtime (files [("t.csv", blank_then_null)]) "t.csv" no_rules
  = Returned
      ({| source_file := "t.csv";
          errors :=
            [ error_entry "Missing value (null/NaN)" "a" (Some 1%nat) None;
              error_entry "Missing value (empty string)" "a" (Some 0%nat) None ];
          warnings := []; passed := [] |}, [])
  ∧ ¬ in_row_order
        (filter (λ e, column e = "a")
           [ error_entry "Missing value (null/NaN)" "a" (Some 1%nat) None;
             error_entry "Missing value (empty string)" "a" (Some 0%nat) None ]).
Proof.
  split; [reflexivity|].
  unfold in_row_order. vm_compute. intros Hs.
  apply StronglySorted_inv in Hs as [_ Hall].
  apply Forall_inv in Hall. lia.
Qed.

(** C6, as amended: the errors, the warnings and the passed entries of a
    result each hold the findings of the required-column pass, then those of
    the missing-value pass, then those of the type pass.  The missing-value
    pass goes through the columns in table order, and for one column lists
    all its null-missing errors in row order and then all its empty-missing
    errors in row order; the type pass goes through the rules in their order
    and lists the findings of one column in row order; the required-column
    pass lists the missing names in the iteration order of their set, and
    the present names in the order of [required_columns]. *)
Theorem findings_order `{PyRuntime}
    (path : string) (df : DataFrame) (rules : RuleSet) :
  empty df = false →
  (errors (validate_frame path df rules).1
   = errors (required_part df rules) ++ errors (detect_missing_values df)
     ++ errors (type_part df rules).1
   ∧ warnings (validate_frame path df rules).1
     = warnings (required_part df rules) ++ warnings (detect_missing_values df)
       ++ warnings (type_part df rules).1
   ∧ passed (validate_frame path df rules).1
     = passed (required_part df rules)
       ++ passed (detect_missing_values df)
       ++ passed (type_part df rules).1)
  ∧ (errors (detect_missing_values df)
     = flat_map (λ s, map (null_error s) (null_indices s)
                      ++ map (empty_error s) (empty_indices s)) (series df)
     ∧ passed (detect_missing_values df)
       = flat_map (λ s, if 0 <? valid_count df s then [valid_values df s] else [])
                  (series df)
     ∧ ∀ s, in_row_order (map (null_error s) (null_indices s))
            ∧ in_row_order (map (empty_error s) (empty_indices s)))
  ∧ (∀ type_rules,
       (validate_data_types df type_rules).1
       = findings (flat_map (errors ∘ rule_findings df) type_rules)
                  (flat_map (warnings ∘ rule_findings df) type_rules)
                  (flat_map (passed ∘ rule_findings df) type_rules))
  ∧ (∀ rule, in_row_order (errors (rule_findings df rule))
             ∧ in_row_order (passed (rule_findings df rule)))
  ∧ (∀ req r,
       errors (_validate_required_columns df req r)
       = errors r ++ map column_missing (set_iter (missing_columns df req))
       ∧ passed (_validate_required_columns df req r)
         = passed r
           ++ map column_present (filter (λ col, col ∈ columns df) req)).
Proof.
  intros Hne. split.
  { rewrite validate_frame_passes by done. simpl.
    by rewrite <- !app_assoc. }
  split.
  { rewrite detect_missing_values_findings by done.
    split; [done|]. split; [done|].
    intros s. unfold in_row_order.
    rewrite rows_of_null_errors, rows_of_empty_errors.
    split; [apply null_indices_sorted|apply empty_indices_sorted]. }
  split. { intros tr. by rewrite validate_data_types_findings. }
  split; [apply rule_findings_in_row_order|].
  intros req r. by rewrite _validate_required_columns_findings.
Qed.

(** The theorem on the table with a blank text above a null. *)
Lemma findings_order_witness :
  empty blank_then_null = false
  ∧ (errors (@validate_frame example_runtime "t.csv" blank_then_null no_rules).1
     = errors (@required_part example_runtime blank_then_null no_rules)
       ++ errors (@detect_missing_values example_runtime blank_then_null)
       ++ errors (type_part blank_then_null no_rules).1
     ∧ warnings (@validate_frame example_runtime "t.csv" blank_then_null no_rules).1
       = warnings (@required_part example_runtime blank_then_null no_rules)
         ++ warnings (@detect_missing_values example_runtime blank_then_null)
         ++ warnings (type_part blank_then_null no_rules).1
     ∧ passed
         (@validate_frame example_runtime "t.csv" blank_then_null no_rules).1
       = passed (@required_part example_runtime blank_then_null no_rules)
         ++ passed (@detect_missing_values example_runtime blank_then_null)
         ++ passed (type_part blank_then_null no_rules).1).
Proof.
  split; [reflexivity|].
  exact (proj1 (@findings_order example_runtime "t.csv" blank_then_null no_rules
                  eq_refl)).
Defined.

(** C7: in the required-column check each name of [required_columns] that
    the table lacks yields exactly one error, "Required column missing" on
    that name and without row, and these are the only errors; each listed
    name the table has yields a passed entry "Required column present", in
    the order of [required_columns]; there is no warning.  For
    [required_columns = ["a", "b"]] and a table with column [a] only: one
    error for [b], one passed entry for [a]. *)
Theorem required_columns_report `{PyRuntime}
    (df : DataFrame) (req : list string) (src : string) :
  (∀ name, name ∈ req → name ∉ columns df →
     filter (λ e, column e = name)
            (errors (_validate_required_columns df req (new_result src)))
     = [column_missing name])
  ∧ (∀ e, e ∈ errors (_validate_required_columns df req (new_result src)) →
          ∃ name, e = column_missing name ∧ name ∈ req ∧ name ∉ columns df)
  ∧ warnings (_validate_required_columns df req (new_result src)) = []
  ∧ passed (_validate_required_columns df req (new_result src))
    = map column_present (filter (λ col, col ∈ columns df) req)
  ∧ _validate_required_columns only_a ["a"; "b"] (new_result src)
    = {| source_file := src; errors := [column_missing "b"]; warnings := [];
         passed := [column_present "a"] |}.
Proof.
  rewrite !_validate_required_columns_findings. simpl.
  split.
  { intros name Hreq Habs. rewrite filter_map.
    change [column_missing name] with (map column_missing [name]). f_equal.
    apply (filter_eq_NoDup name); [apply set_iter_NoDup|].
    by apply elem_of_set_iter, elem_of_missing_columns. }
  split.
  { intros e He. apply list_elem_of_In, in_map_iff in He as (name & <- & Hin).
    exists name. split; [done|].
    by apply elem_of_missing_columns, elem_of_set_iter, list_elem_of_In. }
  split; [done|]. split; [done|].
  unfold extend_with, required_findings. simpl.
  assert (Hb : set_iter (missing_columns only_a ["a"; "b"]) = ["b"]).
  { apply Permutation_singleton_r. rewrite set_iter_perm.
    by vm_compute. }
  by rewrite Hb.
Qed.

(** C8: [validate_file] raises [FileNotFoundError] when the path does not
    exist, and [ValueError] when the extension is neither [.xlsx] nor
    [.csv] or when the reader fails; a run that raises has produced no
    result at all, and a run that returns has gone through every pass on
    the loaded table: it raises exactly when loading does, before any
    check. *)
Theorem load_failure_or_complete_run `{PyRuntime}
    (fs : FileSystem) (path : string) (rules : RuleSet) :
  (path_exists fs path = false →
   validate_file fs path rules
   = Raised (FileNotFoundError ("File not found: " +:+ path)))
  ∧ (path_exists fs path = true →
     endswith path ".xlsx" = false → endswith path ".csv" = false →
     validate_file fs path rules
     = Raised (ValueError ("Error reading file " +:+ path +:+ ": "
                           +:+ "Unsupported file format: " +:+ path)))
  ∧ (∀ e, path_exists fs path = true →
          endswith path ".xlsx" = true → read_excel fs path = inl e →
          validate_file fs path rules
          = Raised (ValueError ("Error reading file " +:+ path +:+ ": " +:+ e)))
  ∧ (∀ e, path_exists fs path = true →
          endswith path ".xlsx" = false → endswith path ".csv" = true →
          read_csv fs path = inl e →
          validate_file fs path rules
          = Raised (ValueError ("Error reading file " +:+ path +:+ ": " +:+ e)))
  ∧ ((∃ e, load fs path = Raised e ∧ validate_file fs path rules = Raised e)
     ∨ (∃ df, load fs path = Returned df
              ∧ validate_file fs path rules
                = Returned (validate_frame path df rules))).
Proof.
  unfold validate_file, load.
  split. { by intros ->. }
  split. { by intros -> -> ->. }
  split. { by intros e -> -> ->. }
  split. { by intros e -> -> -> ->. }
  destruct (path_exists fs path); simpl; [|left; eauto].
  destruct (if endswith path ".xlsx" then read_excel fs path
            else if endswith path ".csv" then read_csv fs path
            else inl ("Unsupported file format: " +:+ path)) as [e|df];
    [left|right]; eauto.
Qed.

(** C9: for every column of a table with rows, the missing-value check
    reports on that column a number [N] of valid values, null-missing errors
    and empty-missing errors that add up to the number of rows; the single
    aggregate passed entry "[N] valid values" is there exactly when [N] is
    positive, and no passed entry for the column otherwise. *)
Theorem missing_counts_add_up `{PyRuntime} (df : DataFrame) (s : Series) :
  well_formed df → empty df = false → s ∈ series df →
  ∃ N : nat,
    (N + length (filter (λ e, column e = label s
                              ∧ message e = "Missing value (null/NaN)")
                        (errors (detect_missing_values df)))
     + length (filter (λ e, column e = label s
                            ∧ message e = "Missing value (empty string)")
                      (errors (detect_missing_values df)))
     = len df)%nat
    ∧ filter (λ e, column e = label s) (passed (detect_missing_values df))
      = if (0 <? N)%nat
        then [passed_entry (str_int (Z.of_nat N) +:+ " valid values") (label s) None]
        else [].
Proof.
  intros Hwf Hne Hs.
  rewrite !(missing_errors_of_column df s) by (done || by intros e [? _]).
  rewrite (missing_passed_of_column df s) by done.
  unfold missing_findings. simpl. rewrite !filter_app, !filter_map.
  rewrite (filter_all _ (null_indices s)) by done.
  rewrite (filter_none _ (empty_indices s)) by (by intros j _ [_ ?]).
  rewrite (filter_none _ (null_indices s)) by (by intros j _ [_ ?]).
  rewrite (filter_all _ (empty_indices s)) by done.
  rewrite app_nil_r, !length_map. simpl.
  pose proof (missing_at_most_all s) as Hle.
  destruct Hwf as [Hlen _]. rewrite Forall_forall in Hlen.
  rewrite (Hlen s) in Hle by done.
  exists (Z.to_nat (valid_count df s)).
  assert (Hvc : valid_count df s
                = Z.of_nat (len df - length (null_indices s)
                            - length (empty_indices s))).
  { unfold valid_count. lia. }
  rewrite !length_map. split; [lia|]. rewrite Hvc, Nat2Z.id.
  destruct (len df - length (null_indices s) - length (empty_indices s))%nat
    as [|n] eqn:Hn.
  - done.
  - replace (0 <? Z.of_nat (S n)) with true by (symmetry; apply Z.ltb_lt; lia).
    rewrite filter_all; [|by intros e ->%list_elem_of_singleton].
    unfold valid_values. by rewrite Hvc.
Qed.

(** The theorem on column [name] of the scenario table. *)
Lemma missing_counts_witness :
  well_formed scenario_table ∧ empty scenario_table = false
  ∧ ∃ N : nat,
      (N + length (filter (λ e, column e = "name"
                                ∧ message e = "Missing value (null/NaN)")
                          (errors (@detect_missing_values example_runtime
                                     scenario_table)))
       + length (filter (λ e, column e = "name"
                              ∧ message e = "Missing value (empty string)")
                        (errors (@detect_missing_values example_runtime
                                   scenario_table)))
       = 3)%nat
      ∧ filter (λ e, column e = "name")
               (passed (@detect_missing_values example_runtime
                                  scenario_table))
        = if (0 <? N)%nat
          then [passed_entry (str_int (Z.of_nat N) +:+ " valid values") "name" None]
          else [].
Proof.
  assert (Hwf : well_formed scenario_table).
  { split; [repeat constructor|]. simpl.
    apply NoDup_cons. split; [|apply NoDup_singleton].
    by intros [=]%list_elem_of_singleton. }
  split; [exact Hwf|]. split; [reflexivity|].
  apply (@missing_counts_add_up example_runtime scenario_table
           {| label := "name"; dtype_of := object_;
              values := [PyStr "A"; PyStr "B"; PyStr ""] |} Hwf);
    [reflexivity|apply elem_of_cons; right; apply elem_of_cons; by left].
Defined.

(** C10, the claim as stated fails: a numpy boolean is a native boolean (it
    passes [bool]) and is rejected under [int] and under [float]. *)
Lemma numpy_bool_fails_int_and_float :
  native_boolean (NpBool true) = true
  ∧ _check_data_type (NpBool true) "bool" = (true, [])
  ∧ _check_data_type (NpBool true) "int" = (false, [])
  ∧ _check_data_type (NpBool true) "float" = (false, []).
Proof. repeat split; reflexivity. Qed.

(** C10, as amended: every built-in boolean ([bool], which Python makes a
    subclass of [int]) is accepted under [int] and under [float], so such a
    cell in a column typed [int] or [float] gets a passed entry and no
    type-mismatch error; a numpy boolean is accepted under neither. *)
Theorem builtin_bool_passes_int_and_float (b : bool) :
  _check_data_type (PyBool b) "int" = (true, [])
  ∧ _check_data_type (PyBool b) "float" = (true, [])
  ∧ (∀ col st i,
       type_cell col "int" st (i, PyBool b)
       = (add_passed st.1 "Valid int value" col (Some i), st.2)
       ∧ type_cell col "float" st (i, PyBool b)
         = (add_passed st.1 "Valid float value" col (Some i), st.2))
  ∧ _check_data_type (NpBool b) "int" = (false, [])
  ∧ _check_data_type (NpBool b) "float" = (false, []).
Proof.
  repeat (split; [reflexivity|]).
  split; [|split; reflexivity].
  intros col [r lg] i. unfold type_cell. simpl. by rewrite app_nil_r.
Qed.

(** * Further properties *)

(** ** The accumulator *)

Lemma perform_all (cs : list call) (r : ValidationResult) :
  foldl perform r cs
  = extend_with r (findings (omap error_of_call cs) (omap warning_of_call cs)
                            (omap passed_of_call cs)).
Proof.
  revert r. induction cs as [|c cs IH]; intros r; simpl.
  - by rewrite extend_with_nothing.
  - rewrite IH. destruct c; simpl;
      rewrite ?add_error_findings, ?add_warning_findings, ?add_passed_findings;
      unfold extend_with; simpl; rewrite ?app_nil_r, <- ?app_assoc; done.
Qed.

(** X1: whatever calls of [add_error], [add_warning] and [add_passed] are
    made on a fresh result, in whatever order, each sequence holds the
    entries of its own calls in call order, nothing is dropped or merged, the
    source file stays, and [get_summary] and [has_errors] count the calls:
    [total_errors] is the number of [add_error] calls, [total_issues] the
    number of [add_error] and [add_warning] calls. *)
Theorem calls_are_counted (src : string) (cs : list call) :
  source_file (foldl perform (new_result src) cs) = src
  ∧ errors (foldl perform (new_result src) cs) = omap error_of_call cs
  ∧ warnings (foldl perform (new_result src) cs) = omap warning_of_call cs
  ∧ passed (foldl perform (new_result src) cs) = omap passed_of_call cs
  ∧ get_summary (foldl perform (new_result src) cs)
    = {| summary_source_file := src;
         total_errors := length (omap error_of_call cs);
         total_warnings := length (omap warning_of_call cs);
         total_passed := length (omap passed_of_call cs);
         total_issues := length (omap error_of_call cs)
                         + length (omap warning_of_call cs) |}
  ∧ (has_errors (foldl perform (new_result src) cs) = true
     ↔ ∃ msg col row v, call_add_error msg col row v ∈ cs)
  ∧ (has_warnings (foldl perform (new_result src) cs) = true
     ↔ ∃ msg col row v, call_add_warning msg col row v ∈ cs).
Proof.
  rewrite perform_all. unfold get_summary, has_errors, has_warnings. simpl.
  repeat (split; [done|]).
  split.
  - rewrite Nat.ltb_lt. split.
    + destruct (omap error_of_call cs) as [|e l] eqn:He; simpl; [lia|]. intros _.
      assert (Hin : e ∈ omap error_of_call cs) by (rewrite He; apply elem_of_cons; by left).
      apply list_elem_of_omap in Hin as (c & Hc & Hec).
      destruct c; try done. eauto.
    + intros (msg & col & row & v & Hin).
      assert (Hin' : error_entry msg col row v ∈ omap error_of_call cs).
      { apply list_elem_of_omap. eexists. split; [exact Hin|done]. }
      destruct (omap error_of_call cs); [by apply elem_of_nil in Hin'|simpl; lia].
  - rewrite Nat.ltb_lt. split.
    + destruct (omap warning_of_call cs) as [|e l] eqn:He; simpl; [lia|]. intros _.
      assert (Hin : e ∈ omap warning_of_call cs) by (rewrite He; apply elem_of_cons; by left).
      apply list_elem_of_omap in Hin as (c & Hc & Hec).
      destruct c; try done. eauto.
    + intros (msg & col & row & v & Hin).
      assert (Hin' : warning_entry msg col row v ∈ omap warning_of_call cs).
      { apply list_elem_of_omap. eexists. split; [exact Hin|done]. }
      destruct (omap warning_of_call cs); [by apply elem_of_nil in Hin'|simpl; lia].
Qed.

(** ** Membership in the findings of a pass *)

Lemma elem_of_map {A B} (f : A → B) (l : list A) (y : B) :
  y ∈ map f l ↔ ∃ x, y = f x ∧ x ∈ l.
Proof.
  rewrite list_elem_of_In, in_map_iff. split.
  - intros (x & <- & Hx). exists x. by rewrite list_elem_of_In.
  - intros (x & -> & Hx). exists x. by rewrite <- list_elem_of_In.
Qed.

Lemma elem_of_flat_map {A B} (f : A → list B) (l : list A) (y : B) :
  y ∈ flat_map f l ↔ ∃ x, x ∈ l ∧ y ∈ f x.
Proof.
  rewrite list_elem_of_In, in_flat_map. split.
  - intros (x & Hx & Hy). exists x. by rewrite !list_elem_of_In.
  - intros (x & Hx & Hy). exists x. by rewrite <- !list_elem_of_In.
Qed.

Lemma elem_of_items_from k l i v :
  (i, v) ∈ items_from k l ↔ ∃ j, i = (k + j)%nat ∧ l !! j = Some v.
Proof.
  revert k. induction l as [|w l IH]; intros k; simpl.
  - split; [intros Hi; by apply elem_of_nil in Hi|]. by intros (j & _ & ?).
  - rewrite elem_of_cons, IH. split.
    + intros [[= -> ->]|(j & -> & Hj)]; [exists 0%nat|exists (S j)];
        (split; [lia|done]).
    + intros ([|j] & -> & Hj); simpl in Hj.
      * left. injection Hj as ->. f_equal. lia.
      * right. exists j. split; [lia|done].
Qed.

(** The cells [dropna] keeps are the cells that are not null, each with its
    row. *)
Lemma elem_of_dropna s i v :
  (i, v) ∈ dropna s ↔ values s !! i = Some v ∧ isnull v = false.
Proof.
  unfold dropna, items. rewrite list_elem_of_filter, elem_of_items_from. simpl.
  destruct (isnull v); simpl; split.
  - by intros [[] _].
  - by intros [_ ?].
  - intros (_ & j & -> & Hj). done.
  - intros (Hv & _). split; [done|]. by exists i.
Qed.

Lemma elem_of_cell_errors col ty (cells : list (nat * PyValue)) e :
  e ∈ flat_map (errors ∘ cell_findings col ty) cells
  ↔ ∃ i v, (i, v) ∈ cells ∧ (_check_data_type v ty).1 = false
           ∧ e = invalid_type col ty i v.
Proof.
  rewrite elem_of_flat_map. unfold compose, cell_findings. split.
  - intros ([i v] & Hc & He). simpl in He. exists i, v.
    destruct (_check_data_type v ty).1; simpl in He.
    + by apply elem_of_nil in He.
    + by apply list_elem_of_singleton in He.
  - intros (i & v & Hc & Hv & ->). exists (i, v). split; [done|]. simpl.
    rewrite Hv. by apply list_elem_of_singleton.
Qed.

Lemma elem_of_cell_passed col ty (cells : list (nat * PyValue)) e :
  e ∈ flat_map (passed ∘ cell_findings col ty) cells
  ↔ ∃ i v, (i, v) ∈ cells ∧ (_check_data_type v ty).1 = true
           ∧ e = valid_value col ty i.
Proof.
  rewrite elem_of_flat_map. unfold compose, cell_findings. split.
  - intros ([i v] & Hc & He). simpl in He. exists i, v.
    destruct (_check_data_type v ty).1; simpl in He.
    + by apply list_elem_of_singleton in He.
    + by apply elem_of_nil in He.
  - intros (i & v & Hc & Hv & ->). exists (i, v). split; [done|]. simpl.
    rewrite Hv. by apply list_elem_of_singleton.
Qed.

Lemma elem_of_rule_errors df col ty e :
  e ∈ errors (rule_findings df (col, ty))
  ↔ (getitem df col = None
     ∧ e = error_entry "Column not found in data" col None None)
    ∨ ∃ s i v, getitem df col = Some s ∧ values s !! i = Some v
               ∧ isnull v = false ∧ (_check_data_type v ty).1 = false
               ∧ e = invalid_type col ty i v.
Proof.
  unfold rule_findings. simpl. destruct (getitem df col) as [s|]; simpl.
  - assert (Hcells : e ∈ flat_map (errors ∘ cell_findings col ty) (dropna s)
                     ↔ e ∈ errors match dropna s with
                          | [] => findings []
                              [warning_entry "Column contains only missing values"
                                 col None None] []
                          | cells =>
                              findings (flat_map (errors ∘ cell_findings col ty) cells)
                                [] (flat_map (passed ∘ cell_findings col ty) cells)
                          end).
    { by destruct (dropna s). }
    rewrite <- Hcells, elem_of_cell_errors. split.
    + intros (i & v & [Hv Hn]%elem_of_dropna & Hc & ->). right.
      by exists s, i, v.
    + intros [[? _]|(s' & i & v & [= <-] & Hv & Hn & Hc & ->)]; [done|].
      exists i, v. by rewrite elem_of_dropna.
  - rewrite list_elem_of_singleton. split.
    + intros ->. by left.
    + intros [[_ ->]|(s & i & v & ? & _)]; done.
Qed.

Lemma elem_of_rule_passed df col ty e :
  e ∈ passed (rule_findings df (col, ty))
  ↔ ∃ s i v, getitem df col = Some s ∧ values s !! i = Some v
             ∧ isnull v = false ∧ (_check_data_type v ty).1 = true
             ∧ e = valid_value col ty i.
Proof.
  unfold rule_findings. simpl. destruct (getitem df col) as [s|]; simpl.
  - assert (Hcells : e ∈ flat_map (passed ∘ cell_findings col ty) (dropna s)
                     ↔ e ∈ passed match dropna s with
                          | [] => findings []
                              [warning_entry "Column contains only missing values"
                                 col None None] []
                          | cells =>
                              findings (flat_map (errors ∘ cell_findings col ty) cells)
                                [] (flat_map (passed ∘ cell_findings col ty) cells)
                          end).
    { by destruct (dropna s). }
    rewrite <- Hcells, elem_of_cell_passed. split.
    + intros (i & v & [Hv Hn]%elem_of_dropna & Hc & ->). by exists s, i, v.
    + intros (s' & i & v & [= <-] & Hv & Hn & Hc & ->).
      exists i, v. by rewrite elem_of_dropna.
  - split; [intros He; by apply elem_of_nil in He|].
    intros (s & i & v & ? & _). done.
Qed.

Lemma elem_of_rule_warnings df col ty e :
  e ∈ warnings (rule_findings df (col, ty))
  ↔ ∃ s, getitem df col = Some s
         ∧ (∀ v, v ∈ values s → isnull v = true)
         ∧ e = warning_entry "Column contains only missing values" col None None.
Proof.
  unfold rule_findings. simpl. destruct (getitem df col) as [s|]; simpl.
  - assert (Hall : dropna s = [] ↔ ∀ v, v ∈ values s → isnull v = true).
    { split.
      - intros Hd v [i Hv]%list_elem_of_lookup.
        destruct (isnull v) eqn:Hn; [done|].
        assert (Hin : (i, v) ∈ dropna s) by by apply elem_of_dropna.
        rewrite Hd in Hin. by apply elem_of_nil in Hin.
      - intros Hall. destruct (dropna s) as [|[i v] cells] eqn:Hd; [done|].
        assert (Hin : (i, v) ∈ dropna s) by (rewrite Hd; apply elem_of_cons; by left).
        apply elem_of_dropna in Hin as [Hv Hn].
        rewrite (Hall v) in Hn; [done|]. apply list_elem_of_lookup. eauto. }
    destruct (dropna s) as [|c cells] eqn:Hd; simpl.
    + rewrite list_elem_of_singleton. split.
      * intros ->. exists s. split; [done|]. split; [by apply Hall|done].
      * by intros (s' & _ & _ & ->).
    + split; [intros He; by apply elem_of_nil in He|].
      intros (s' & [= <-] & Hnull & _). by apply Hall in Hnull.
  - split; [intros He; by apply elem_of_nil in He|]. by intros (s & ? & _).
Qed.

(** X2: an error of the type check is there for a reason, and every reason
    gives its error: the errors of [validate_data_types] are exactly
    "Column not found in data" for each rule whose column the table lacks,
    and "Invalid data type..." with the cell's value for each cell of a
    ruled column that is not null and fails the type predicate. *)
Theorem type_errors_characterized
    (df : DataFrame) (type_rules : list (string * string)) (e : ValidationEntry) :
  e ∈ errors (validate_data_types df type_rules).1
  ↔ ∃ col ty, (col, ty) ∈ type_rules
      ∧ ((getitem df col = None
          ∧ e = error_entry "Column not found in data" col None None)
         ∨ ∃ s i v, getitem df col = Some s ∧ values s !! i = Some v
                    ∧ isnull v = false ∧ (_check_data_type v ty).1 = false
                    ∧ e = invalid_type col ty i v).
Proof.
  rewrite validate_data_types_findings. simpl. rewrite elem_of_flat_map.
  split.
  - intros ([col ty] & Hin & He). exists col, ty. split; [done|].
    by apply elem_of_rule_errors.
  - intros (col & ty & Hin & He). exists (col, ty). split; [done|].
    by apply elem_of_rule_errors.
Qed.

(** X3: the passed entries of [validate_data_types] are exactly one
    "Valid <tag> value" for each cell of a ruled column that is not null and
    passes the type predicate; its warnings are exactly "Column contains
    only missing values" for each ruled column of the table all of whose
    cells are null (a column without rows included). *)
Theorem type_passed_and_warnings_characterized
    (df : DataFrame) (type_rules : list (string * string)) (e : ValidationEntry) :
  (e ∈ passed (validate_data_types df type_rules).1
   ↔ ∃ col ty s i v, (col, ty) ∈ type_rules
       ∧ getitem df col = Some s ∧ values s !! i = Some v
       ∧ isnull v = false ∧ (_check_data_type v ty).1 = true
       ∧ e = valid_value col ty i)
  ∧ (e ∈ warnings (validate_data_types df type_rules).1
     ↔ ∃ col ty s, (col, ty) ∈ type_rules
         ∧ getitem df col = Some s
         ∧ (∀ v, v ∈ values s → isnull v = true)
         ∧ e = warning_entry "Column contains only missing values" col None None).
Proof.
  rewrite validate_data_types_findings. simpl. rewrite !elem_of_flat_map.
  split; split.
  - intros ([col ty] & Hin & He). apply elem_of_rule_passed in He
      as (s & i & v & ?). by exists col, ty, s, i, v.
  - intros (col & ty & s & i & v & Hin & He). exists (col, ty).
    split; [done|]. apply elem_of_rule_passed. by exists s, i, v.
  - intros ([col ty] & Hin & He). apply elem_of_rule_warnings in He
      as (s & ?). by exists col, ty, s.
  - intros (col & ty & s & Hin & He). exists (col, ty).
    split; [done|]. apply elem_of_rule_warnings. by exists s.
Qed.

(** ** Severities and values of the entries *)

Lemma classified_extend_with a b :
  classified a → classified b → classified (extend_with a b).
Proof.
  intros (Hae & Haw & Hap) (Hbe & Hbw & Hbp). unfold classified, extend_with.
  simpl. rewrite !Forall_app. done.
Qed.

Lemma classified_new src : classified (new_result src).
Proof. unfold classified. simpl. done. Qed.

Lemma classified_type_pass df type_rules :
  classified (validate_data_types df type_rules).1.
Proof.
  rewrite validate_data_types_findings. unfold classified. simpl.
  rewrite !Forall_forall. split; [|split].
  - intros e ([col ty] & _ & He)%elem_of_flat_map.
    apply elem_of_rule_errors in He
      as [[_ ->]|(s & i & v & _ & _ & _ & _ & ->)]; simpl; [done|].
    split; [done|]. intros v' [= <-]. by exists ty, i.
  - intros e ([col ty] & _ & He)%elem_of_flat_map.
    by apply elem_of_rule_warnings in He as (s & _ & _ & ->).
  - intros e ([col ty] & _ & He)%elem_of_flat_map.
    by apply elem_of_rule_passed in He as (s & i & v & _ & _ & _ & _ & ->).
Qed.

Section Classified.
Context `{PyRuntime}.

Lemma classified_required df req : classified (required_findings df req).
Proof.
  unfold classified, required_findings. simpl. rewrite !Forall_forall.
  split; [|split].
  - by intros e (c & -> & _)%elem_of_map.
  - intros e He. by apply elem_of_nil in He.
  - by intros e (c & -> & _)%elem_of_map.
Qed.

Lemma classified_missing df : classified (detect_missing_values df).
Proof.
  destruct (empty df) eqn:Hne.
  { unfold detect_missing_values. rewrite Hne. unfold classified. simpl.
    repeat constructor. }
  rewrite detect_missing_values_findings by done.
  unfold classified. simpl. rewrite !Forall_forall. split; [|split].
  - intros e (s & _ & He)%elem_of_flat_map. unfold compose in He. simpl in He.
    by apply elem_of_app in He as [(i & -> & _)%elem_of_map|(i & -> & _)%elem_of_map].
  - intros e He. by apply elem_of_nil in He.
  - intros e (s & _ & He)%elem_of_flat_map. unfold compose in He. simpl in He.
    destruct (0 <? valid_count df s); [|by apply elem_of_nil in He].
    by apply list_elem_of_singleton in He as ->.
Qed.

Lemma classified_frame path df rules :
  source_file (validate_frame path df rules).1 = path
  ∧ classified (validate_frame path df rules).1.
Proof.
  destruct (empty df) eqn:Hne.
  { unfold validate_frame. rewrite Hne. simpl. split; [done|].
    unfold classified. simpl. repeat constructor. }
  rewrite validate_frame_passes by done. simpl. split; [done|].
  repeat apply classified_extend_with.
  - apply classified_new.
  - unfold required_part. destruct (required_columns rules).
    + apply classified_required.
    + unfold classified. simpl. done.
  - apply classified_missing.
  - unfold type_part. destruct (data_types rules).
    + apply classified_type_pass.
    + unfold classified. simpl. done.
Qed.

End Classified.

(** X4: in every result [validate_file] returns, the source file is the
    path given, every entry of [errors] has severity "error", every entry of
    [warnings] "warning" and every entry of [passed] "passed"; warnings and
    passed entries carry no value, and an error carries a value only when it
    is a type mismatch at a row, "Invalid data type. Expected <tag>, got
    <type of the value>". *)
Theorem results_are_classified `{PyRuntime}
    (fs : FileSystem) (path : string) (rules : RuleSet)
    (r : ValidationResult) (log : list string) :
  validate_file fs path rules = Returned (r, log) →
  source_file r = path
  ∧ Forall (λ e, severity e = "error"
                 ∧ ∀ v, value e = Some v →
                        ∃ ty i, row e = Some i
                                ∧ e = invalid_type (column e) ty i v)
           (errors r)
  ∧ Forall (λ e, severity e = "warning" ∧ value e = None) (warnings r)
  ∧ Forall (λ e, severity e = "passed" ∧ value e = None) (passed r).
Proof.
  unfold validate_file. destruct (load fs path) as [e|df]; [done|].
  intros [= Hr]. pose proof (classified_frame path df rules) as [Hsrc Hcl].
  destruct (validate_frame path df rules) as [r' log']. simpl in *.
  injection Hr as <- <-. done.
Qed.

(** ** Which cells are missing *)

Section MissingCells.
Context `{PyRuntime}.

Lemma elem_of_null_indices s i :
  i ∈ null_indices s ↔ ∃ v, values s !! i = Some v ∧ isnull v = true.
Proof.
  unfold null_indices. rewrite elem_of_mask_index_0, lookup_map.
  destruct (values s !! i) as [v|]; simpl; split.
  - intros [= Hv]. by exists v.
  - by intros (v' & [= <-] & ->).
  - done.
  - by intros (v & ? & _).
Qed.

Lemma elem_of_empty_indices s i :
  i ∈ empty_indices s
  ↔ is_object (dtype_of s) = true
    ∧ ∃ v, values s !! i = Some v ∧ isnull v = false
           ∧ strip (astype_str v) = "".
Proof.
  unfold empty_indices. destruct (is_object (dtype_of s)).
  2:{ split; [intros Hi; by apply elem_of_nil in Hi|by intros [? _]]. }
  rewrite elem_of_mask_index_0, lookup_zip_with, !lookup_map.
  destruct (values s !! i) as [v|]; simpl.
  2:{ split; [done|]. by intros (_ & v & ? & _). }
  split.
  - intros [= Hv]. apply andb_true_iff in Hv as [Hblank Hnull].
    split; [done|]. exists v. split; [done|].
    apply negb_true_iff in Hnull. by apply String.eqb_eq in Hblank.
  - intros (_ & v' & [= <-] & Hnull & Hblank).
    by rewrite Hnull, Hblank.
Qed.

Lemma elem_of_missing_errors df e :
  empty df = false →
  e ∈ errors (detect_missing_values df)
  ↔ ∃ s, s ∈ series df
         ∧ ((∃ i, i ∈ null_indices s ∧ e = null_error s i)
            ∨ (∃ i, i ∈ empty_indices s ∧ e = empty_error s i)).
Proof.
  intros Hne. rewrite detect_missing_values_findings by done. simpl.
  rewrite elem_of_flat_map. unfold compose. simpl. split.
  - intros (s & Hs & He). exists s. split; [done|].
    apply elem_of_app in He as [(i & -> & Hi)%elem_of_map|(i & -> & Hi)%elem_of_map];
      [left|right]; by exists i.
  - intros (s & Hs & He). exists s. split; [done|]. apply elem_of_app.
    destruct He as [(i & Hi & ->)|(i & Hi & ->)]; [left|right];
      apply elem_of_map; by exists i.
Qed.

End MissingCells.

(** X5: on a table with rows and columns the errors of
    [detect_missing_values] are exactly: "Missing value (null/NaN)" at each
    null cell, and "Missing value (empty string)" at each cell of a column
    of dtype [object] that is not null and whose text is blank once
    stripped; a column of any other dtype never gets an empty-string
    error. *)
Theorem missing_errors_characterized `{PyRuntime}
    (df : DataFrame) (e : ValidationEntry) :
  empty df = false →
  e ∈ errors (detect_missing_values df)
  ↔ ∃ s i v, s ∈ series df ∧ values s !! i = Some v
      ∧ ((isnull v = true
          ∧ e = error_entry "Missing value (null/NaN)" (label s) (Some i) None)
         ∨ (isnull v = false ∧ is_object (dtype_of s) = true
            ∧ strip (astype_str v) = ""
            ∧ e = error_entry "Missing value (empty string)" (label s) (Some i)
                    None)).
Proof.
  intros Hne. rewrite elem_of_missing_errors by done. split.
  - intros (s & Hs & [(i & Hi & ->)|(i & Hi & ->)]).
    + apply elem_of_null_indices in Hi as (v & Hv & Hn).
      exists s, i, v. split; [done|]. split; [done|]. by left.
    + apply elem_of_empty_indices in Hi as (Hobj & v & Hv & Hn & Hb).
      exists s, i, v. split; [done|]. split; [done|]. by right.
  - intros (s & i & v & Hs & Hv & [(Hn & ->)|(Hn & Hobj & Hb & ->)]);
      exists s; (split; [done|]).
    + left. exists i. split; [|done]. apply elem_of_null_indices. eauto.
    + right. exists i. split; [|done]. apply elem_of_empty_indices. eauto.
Qed.

(** The theorem on the table with a blank text above a null. *)
Lemma missing_errors_characterized_witness :
  empty blank_then_null = false
  ∧ (error_entry "Missing value (empty string)" "a" (Some 0%nat) None
     ∈ errors (@detect_missing_values example_runtime blank_then_null)).
Proof.
  split; [reflexivity|].
  apply (@missing_errors_characterized example_runtime blank_then_null _ eq_refl).
  exists {| label := "a"; dtype_of := object_; values := [PyStr " "; PyNone] |},
    0%nat, (PyStr " ").
  split; [apply elem_of_cons; by left|]. split; [reflexivity|].
  right. repeat split; reflexivity.
Defined.

(** The theorem on a loaded file. *)
Lemma results_are_classified_witness :
  @validate_file example_runtime (files [("t.csv", blank_then_null)]) "t.csv"
    scenario_rules
  = Returned (@validate_frame example_runtime "t.csv" blank_then_null scenario_rules)
  ∧ source_file (@validate_frame example_runtime "t.csv" blank_then_null
                   scenario_rules).1 = "t.csv".
Proof.
  split; [reflexivity|].
  apply (@results_are_classified example_runtime
           (files [("t.csv", blank_then_null)]) "t.csv" scenario_rules
           (@validate_frame example_runtime "t.csv" blank_then_null scenario_rules).1
           (@validate_frame example_runtime "t.csv" blank_then_null scenario_rules).2).
  reflexivity.
Defined.

(** ** Runs without errors *)

Lemma has_errors_false r : has_errors r = false ↔ ∀ e, e ∉ errors r.
Proof.
  unfold has_errors. rewrite Nat.ltb_ge. split.
  - intros Hlen e He. destruct (errors r); [by apply elem_of_nil in He|].
    simpl in Hlen. lia.
  - intros Hno. destruct (errors r) as [|e l]; [done|].
    destruct (Hno e). apply elem_of_cons. by left.
Qed.

Section Clean.
Context `{PyRuntime}.

Lemma elem_of_frame_errors path df rules e :
  empty df = false →
  e ∈ errors (validate_frame path df rules).1
  ↔ (∃ req c, required_columns rules = Some req ∧ c ∈ req ∧ (c ∉ columns df)
              ∧ e = column_missing c)
    ∨ e ∈ errors (detect_missing_values df)
    ∨ (∃ tr, data_types rules = Some tr
             ∧ e ∈ errors (validate_data_types df tr).1).
Proof.
  intros Hne. rewrite validate_frame_passes by done. simpl.
  rewrite !elem_of_app.
  assert (Hreq : e ∈ errors (required_part df rules)
                 ↔ ∃ req c, required_columns rules = Some req ∧ c ∈ req
                            ∧ (c ∉ columns df) ∧ e = column_missing c).
  { unfold required_part. destruct (required_columns rules) as [req|]; simpl.
    - rewrite elem_of_map. split.
      + intros (c & -> & Hc). apply elem_of_set_iter, elem_of_missing_columns in Hc
          as [Hc Habs]. by exists req, c.
      + intros (req' & c & [= <-] & Hc & Habs & ->). exists c. split; [done|].
        by apply elem_of_set_iter, elem_of_missing_columns.
    - split; [intros He; by apply elem_of_nil in He|]. by intros (? & ? & ? & _). }
  assert (Htype : e ∈ errors (type_part df rules).1
                  ↔ ∃ tr, data_types rules = Some tr
                          ∧ e ∈ errors (validate_data_types df tr).1).
  { unfold type_part. destruct (data_types rules) as [tr|]; simpl.
    - split; [by exists tr|]. by intros (tr' & [= <-] & ?).
    - split; [intros He; by apply elem_of_nil in He|]. by intros (? & ? & _). }
  rewrite Hreq, Htype. tauto.
Qed.

End Clean.

(** X6: on a table with rows and columns, [has_errors] is false for the
    result of a run exactly when the data is clean: every required column
    is in the table, no cell is null, no cell of an [object] column is blank,
    and every ruled column is in the table with all its cells passing the
    type predicate of its tag. *)
Theorem no_error_iff_clean `{PyRuntime}
    (path : string) (df : DataFrame) (rules : RuleSet) :
  empty df = false →
  has_errors (validate_frame path df rules).1 = false
  ↔ (∀ req c, required_columns rules = Some req → c ∈ req → c ∈ columns df)
    ∧ (∀ s i v, s ∈ series df → values s !! i = Some v →
         isnull v = false
         ∧ (is_object (dtype_of s) = true → strip (astype_str v) ≠ ""))
    ∧ (∀ tr col ty, data_types rules = Some tr → (col, ty) ∈ tr →
         ∃ s, getitem df col = Some s
              ∧ ∀ i v, values s !! i = Some v → isnull v = false →
                       (_check_data_type v ty).1 = true).
Proof.
  intros Hne. rewrite has_errors_false. split.
  - intros Hno.
    assert (Hno' : ∀ e, ¬ ((∃ req c, required_columns rules = Some req ∧ c ∈ req
                                     ∧ (c ∉ columns df) ∧ e = column_missing c)
                           ∨ e ∈ errors (detect_missing_values df)
                           ∨ (∃ tr, data_types rules = Some tr
                                    ∧ e ∈ errors (validate_data_types df tr).1))).
    { intros e He. apply (Hno e). by apply elem_of_frame_errors. }
    split; [|split].
    + intros req c Hreq Hc. destruct (decide (c ∈ columns df)) as [|Habs]; [done|].
      destruct (Hno' (column_missing c)). left. by exists req, c.
    + intros s i v Hs Hv.
      assert (Hnull : isnull v = false).
      { destruct (isnull v) eqn:Hn; [|done].
        destruct (Hno' (null_error s i)). right. left.
        apply elem_of_missing_errors; [done|]. exists s. split; [done|].
        left. exists i. split; [|done]. apply elem_of_null_indices. eauto. }
      split; [done|]. intros Hobj Hblank.
      destruct (Hno' (empty_error s i)). right. left.
      apply elem_of_missing_errors; [done|]. exists s. split; [done|].
      right. exists i. split; [|done]. apply elem_of_empty_indices. eauto.
    + intros tr col ty Htr Hin.
      destruct (getitem df col) as [s|] eqn:Hs.
      * exists s. split; [done|]. intros i v Hv Hnull.
        destruct (_check_data_type v ty).1 eqn:Hc; [done|].
        destruct (Hno' (invalid_type col ty i v)). right. right.
        exists tr. split; [done|]. rewrite validate_data_types_findings. simpl.
        apply elem_of_flat_map. exists (col, ty). split; [done|].
        apply elem_of_rule_errors. right. by exists s, i, v.
      * destruct (Hno' (error_entry "Column not found in data" col None None)).
        right. right. exists tr. split; [done|].
        rewrite validate_data_types_findings. simpl.
        apply elem_of_flat_map. exists (col, ty). split; [done|].
        apply elem_of_rule_errors. by left.
  - intros (Hreq & Hcells & Hrules) e He.
    apply elem_of_frame_errors in He; [|done]. destruct He as [He|[He|He]].
    + destruct He as (req & c & Hr & Hc & Habs & _). by apply Habs, (Hreq req).
    + apply elem_of_missing_errors in He; [|done].
      destruct He as (s & Hs & [(i & Hi & _)|(i & Hi & _)]).
      * apply elem_of_null_indices in Hi as (v & Hv & Hn).
        destruct (Hcells s i v Hs Hv) as [Hn' _]. congruence.
      * apply elem_of_empty_indices in Hi as (Hobj & v & Hv & _ & Hb).
        destruct (Hcells s i v Hs Hv) as [_ Hnb]. by apply Hnb.
    + destruct He as (tr & Htr & He).
      rewrite validate_data_types_findings in He. simpl in He.
      apply elem_of_flat_map in He as ([col ty] & Hin & He).
      destruct (Hrules tr col ty Htr Hin) as (s & Hs & Hok).
      apply elem_of_rule_errors in He
        as [[Hnone _]|(s' & i & v & Hs' & Hv & Hn & Hc & _)]; [congruence|].
      assert (s' = s) as -> by congruence.
      rewrite (Hok i v Hv Hn) in Hc. done.
Qed.

(** The theorem on the table with the single column [a]. *)
Lemma no_error_iff_clean_witness :
  empty only_a = false
  ∧ has_errors (@validate_frame example_runtime "t.csv" only_a
                  {| required_columns := Some ["a"];
                     data_types := Some [("a", "int")] |}).1 = false.
Proof.
  split; [reflexivity|].
  apply (@no_error_iff_clean example_runtime "t.csv" only_a
           {| required_columns := Some ["a"]; data_types := Some [("a", "int")] |}
           eq_refl).
  split; [|split].
  - intros req c [= <-] ->%list_elem_of_singleton. apply elem_of_cons. by left.
  - intros s i v ->%list_elem_of_singleton Hv. destruct i as [|[|i]]; try done.
    injection Hv as <-. done.
  - intros tr col ty [= <-] [= -> ->]%list_elem_of_singleton.
    eexists. split; [reflexivity|]. intros i v Hv _.
    destruct i as [|[|i]]; try done. injection Hv as <-. done.
Defined.

(** ** The summary sheet *)

Lemma foldl_snoc_map {A B} (f : A → B) (l : list A) (acc : list B) :
  foldl (λ rows x, rows ++ [f x]) acc l = acc ++ map f l.
Proof.
  revert acc. induction l as [|x l IH]; intros acc; simpl.
  - by rewrite app_nil_r.
  - by rewrite IH, <- app_assoc.
Qed.

Lemma summary_data_rows r : summary_data r = map summary_row (all_entries r).
Proof. unfold summary_data. by rewrite foldl_snoc_map. Qed.

Lemma map_const_replicate {A B} (f : A → B) (b : B) (l : list A) :
  Forall (λ x, f x = b) l → map f l = replicate (length l) b.
Proof.
  induction 1 as [|x l Hx _ IH]; simpl; [done|]. by rewrite Hx, IH.
Qed.

(** X7: the sheet [Summary] of a result [validate_file] returned has one
    row per finding, the errors first, then the warnings, then the passed
    entries, each group in the order of its sequence; the severities read
    "Error", "Warning" and "Passed" group by group, the number of rows is
    [total_issues + total_passed] of [get_summary], and only rows of
    severity "Error" can show a value. *)
Theorem summary_sheet_of_a_run `{PyRuntime}
    (fs : FileSystem) (path : string) (rules : RuleSet)
    (r : ValidationResult) (log : list string) :
  validate_file fs path rules = Returned (r, log) →
  summary_data r
  = map summary_row (errors r) ++ map summary_row (warnings r)
    ++ map summary_row (passed r)
  ∧ map Severity (summary_data r)
    = replicate (length (errors r)) "Error"
      ++ replicate (length (warnings r)) "Warning"
      ++ replicate (length (passed r)) "Passed"
  ∧ length (summary_data r)
    = (total_issues (get_summary r) + total_passed (get_summary r))%nat
  ∧ Forall (λ row, Severity row ≠ "Error" → Value row = PyStr "")
           (summary_data r).
Proof.
  unfold validate_file. destruct (load fs path) as [e|df]; [done|].
  intros [= Hr]. pose proof (classified_frame path df rules) as [_ Hcl].
  rewrite Hr in Hcl. simpl in Hcl. destruct Hcl as (He & Hw & Hp).
  rewrite summary_data_rows. unfold all_entries. rewrite !map_app.
  split; [done|]. split; [|split].
  - rewrite !map_map.
    rewrite (map_const_replicate _ "Error" (errors r)),
      (map_const_replicate _ "Warning" (warnings r)),
      (map_const_replicate _ "Passed" (passed r)); [done|..].
    + eapply Forall_impl; [exact Hp|]. intros e [Hs _]. simpl. by rewrite Hs.
    + eapply Forall_impl; [exact Hw|]. intros e [Hs _]. simpl. by rewrite Hs.
    + eapply Forall_impl; [exact He|]. intros e [Hs _]. simpl. by rewrite Hs.
  - rewrite !length_app, !length_map. simpl. lia.
  - rewrite !Forall_app. split; [|split]; apply Forall_forall;
      intros row (e & -> & Hin)%elem_of_map; simpl.
    + rewrite Forall_forall in He. destruct (He e Hin) as [Hs _].
      rewrite Hs. done.
    + rewrite Forall_forall in Hw. destruct (Hw e Hin) as [_ Hv].
      by rewrite Hv.
    + rewrite Forall_forall in Hp. destruct (Hp e Hin) as [_ Hv].
      by rewrite Hv.
Qed.

(** The theorem on a loaded file. *)
Lemma summary_sheet_witness :
  @validate_file example_runtime (files [("t.csv", blank_then_null)]) "t.csv"
    scenario_rules
  = Returned (@validate_frame example_runtime "t.csv" blank_then_null scenario_rules)
  ∧ length (summary_data
              (@validate_frame example_runtime "t.csv" blank_then_null
                 scenario_rules).1)
    = (total_issues (get_summary
                       (@validate_frame example_runtime "t.csv" blank_then_null
                          scenario_rules).1)
       + total_passed (get_summary
                         (@validate_frame example_runtime "t.csv" blank_then_null
                            scenario_rules).1))%nat.
Proof.
  split; [reflexivity|].
  apply (@summary_sheet_of_a_run example_runtime
           (files [("t.csv", blank_then_null)]) "t.csv" scenario_rules
           (@validate_frame example_runtime "t.csv" blank_then_null scenario_rules).1
           (@validate_frame example_runtime "t.csv" blank_then_null scenario_rules).2).
  reflexivity.
Defined.

(** ** The colours of the cells *)

Lemma color_entry_frame sheets df name cs e :
  name ∈ sheets →
  color_entry sheets (ReadFrame df) name (inr cs) e
  = inr match cell_of df e with
        | Some cell => <[cell := severity e]> cs
        | None => cs
        end.
Proof.
  intros Hin. unfold color_entry, cell_of.
  destruct (row e) as [i|]; simpl; [|done].
  rewrite bool_decide_true by done.
  by destruct (index (columns df) (column e)).
Qed.

Lemma cell_severity_of_frame sheets df name r :
  name ∈ sheets →
  cell_severity_of sheets (ReadFrame df) name r
  = inr (cell_severity_frame df (all_entries r)).
Proof.
  intros Hin. unfold cell_severity_of, cell_severity_frame, all_entries.
  generalize (∅ : gmap (nat * nat) string).
  induction (errors r ++ warnings r ++ passed r) as [|e l IH]; intros cs;
    [done|].
  cbn [foldl]. rewrite color_entry_frame by done. apply IH.
Qed.

(** The severity kept for a cell is that of the last entry aimed at it. *)
Lemma cell_severity_frame_lookup df (l : list ValidationEntry) cell :
  cell_severity_frame df l !! cell
  = severity <$> last (filter (λ e, cell_of df e = Some cell) l).
Proof.
  unfold cell_severity_frame.
  induction l as [|e l IH] using rev_ind; [done|].
  rewrite foldl_app, filter_app. simpl. rewrite filter_cons, filter_nil.
  destruct (cell_of df e) as [c|] eqn:Hc.
  - destruct (decide (Some c = Some cell)) as [[= ->]|Hne].
    + by rewrite last_snoc, lookup_insert_eq.
    + rewrite app_nil_r, lookup_insert_ne by congruence. apply IH.
  - destruct (decide (None = Some cell)) as [|_]; [done|].
    rewrite app_nil_r. apply IH.
Qed.

Lemma apply_colors_lookup ws cs cell :
  apply_colors ws cs !! cell
  = match cs !! cell ≫= (colors !!.) with
    | Some fill => Some fill
    | None => ws !! cell
    end.
Proof.
  unfold apply_colors.
  apply (map_fold_weak_ind
           (λ (res : gmap (nat * nat) PatternFill) (m : gmap (nat * nat) string),
              res !! cell = match m !! cell ≫= (colors !!.) with
                            | Some fill => Some fill
                            | None => ws !! cell
                            end)).
  - by rewrite lookup_empty.
  - intros k sev m res Hk IH. destruct (decide (k = cell)) as [->|Hne].
    + rewrite lookup_insert_eq. simpl.
      destruct (colors !! sev) as [fill|] eqn:Hf.
      * by rewrite lookup_insert_eq.
      * rewrite IH, Hk. done.
    + rewrite lookup_insert_ne by done.
      destruct (colors !! sev); [rewrite lookup_insert_ne by done|]; apply IH.
Qed.

(** X8: when the sheet is in the workbook and the source reads again as the
    frame [df], [_apply_color_coding] succeeds, and the fill of a cell is
    decided by the last entry, in the order errors, warnings, passed, that
    has a row and names a column of [df] and so aims at the cell (entry row
    plus 2, position of the first column of that name plus 1): the cell gets
    the colour of that entry's severity, and keeps its fill when no entry
    aims at it or the severity has no colour. *)
Theorem cell_fill_is_last_entry
    (sheets : list string) (df : DataFrame)
    (ws : gmap (nat * nat) PatternFill) (r : ValidationResult) (name : string) :
  name ∈ sheets →
  ∃ coloured,
    _apply_color_coding sheets (ReadFrame df) ws r name = inr coloured
    ∧ ∀ cell,
        coloured !! cell
        = match last (filter (λ e, cell_of df e = Some cell)
                             (errors r ++ warnings r ++ passed r)) with
          | Some e => match colors !! severity e with
                      | Some fill => Some fill
                      | None => ws !! cell
                      end
          | None => ws !! cell
          end.
Proof.
  intros Hin. unfold _apply_color_coding. rewrite bool_decide_true by done.
  rewrite cell_severity_of_frame by done. eexists. split; [done|].
  intros cell. rewrite apply_colors_lookup, cell_severity_frame_lookup.
  unfold all_entries.
  by destruct (last (filter (λ e, cell_of df e = Some cell)
                            (errors r ++ warnings r ++ passed r))).
Qed.

(** X9: when reading the source again raises an exception the loop catches,
    no cell is coloured, whatever the result holds; when the sheet is not in
    the workbook the call fails; and when reading raises another exception,
    the call fails exactly if some entry has a row (no entry with a row, no
    reading). *)
Theorem colouring_without_frame
    (sheets : list string) (ws : gmap (nat * nat) PatternFill)
    (r : ValidationResult) (name : string) :
  (name ∈ sheets → _apply_color_coding sheets ReadCaught ws r name = inr ws)
  ∧ (name ∉ sheets →
     ∀ reread, _apply_color_coding sheets reread ws r name
               = inl (NoSuchSheet name))
  ∧ (name ∈ sheets →
     ∀ e, _apply_color_coding sheets (ReadRaises e) ws r name
          = if bool_decide (Forall (λ entry, row entry = None)
                                   (errors r ++ warnings r ++ passed r))
            then inr ws else inl (ReaderError e)).
Proof.
  unfold _apply_color_coding, cell_severity_of. split; [|split].
  - intros Hin. rewrite bool_decide_true by done.
    assert (Hfold : ∀ l cs, foldl (color_entry sheets ReadCaught name) (inr cs) l
                            = inr cs).
    { induction l as [|e l IH]; intros cs; simpl; [done|].
      destruct (row e); [rewrite bool_decide_true by done|]; apply IH. }
    rewrite Hfold. unfold apply_colors. by rewrite map_fold_empty.
  - intros Hout reread. by rewrite bool_decide_false.
  - intros Hin e. rewrite bool_decide_true by done.
    assert (Hfail : ∀ l err, foldl (color_entry sheets (ReadRaises e) name)
                                   (inl err) l = inl err).
    { induction l as [|x l IH]; intros err; simpl; [done|]. apply IH. }
    assert (Hfold : ∀ l cs, foldl (color_entry sheets (ReadRaises e) name)
                                  (inr cs) l
                            = if bool_decide (Forall (λ entry, row entry = None) l)
                              then inr cs else inl (ReaderError e)).
    { induction l as [|x l IH]; intros cs; simpl.
      - done.
      - destruct (row x) as [i|] eqn:Hx.
        + rewrite bool_decide_true by done. rewrite Hfail.
          rewrite bool_decide_false; [done|].
          intros Hall. apply Forall_cons in Hall as [Hrow _]. congruence.
        + rewrite IH. destruct (decide (Forall (λ entry, row entry = None) l)).
          * rewrite !bool_decide_true; [done| |done]. by constructor.
          * rewrite !bool_decide_false; [done| |done].
            by intros [_ ?]%Forall_cons. }
    rewrite Hfold.
    destruct (bool_decide (Forall (λ entry, row entry = None)
                                  (errors r ++ warnings r ++ passed r))); [|done].
    unfold apply_colors. by rewrite map_fold_empty.
Qed.

(** The theorem on the scenario table, with a clean sheet. *)
Lemma cell_fill_witness :
  "Validated_Data" ∈ ["Validated_Data"; "Summary"; "Data_Lineage"]
  ∧ ∃ coloured,
      _apply_color_coding ["Validated_Data"; "Summary"; "Data_Lineage"]
        (ReadFrame scenario_table) ∅
        (@validate_frame example_runtime "t.xlsx" scenario_table scenario_rules).1
        "Validated_Data" = inr coloured
      ∧ ∀ cell,
          coloured !! cell
          = match last (filter (λ e, cell_of scenario_table e = Some cell)
                   (errors (@validate_frame example_runtime "t.xlsx"
                              scenario_table scenario_rules).1
                    ++ warnings (@validate_frame example_runtime "t.xlsx"
                                   scenario_table scenario_rules).1
                    ++ passed (@validate_frame example_runtime "t.xlsx"
                                 scenario_table scenario_rules).1)) with
            | Some e => match colors !! severity e with
                        | Some fill => Some fill
                        | None => (∅ : gmap (nat * nat) PatternFill) !! cell
                        end
            | None => (∅ : gmap (nat * nat) PatternFill) !! cell
            end.
Proof.
  assert (Hin : "Validated_Data" ∈ ["Validated_Data"; "Summary"; "Data_Lineage"])
    by (apply elem_of_cons; by left).
  split; [exact Hin|].
  exact (cell_fill_is_last_entry ["Validated_Data"; "Summary"; "Data_Lineage"]
           scenario_table ∅
           (@validate_frame example_runtime "t.xlsx" scenario_table scenario_rules).1
           "Validated_Data" Hin).
Defined.

(** ** Rows and columns of the entries of a run *)

Lemma getitem_Some df col s :
  getitem df col = Some s → s ∈ series df ∧ label s = col.
Proof.
  unfold getitem. intros Hs. apply find_some in Hs as [Hin Heq].
  split; [by apply list_elem_of_In|by apply String.eqb_eq].
Qed.

Lemma index_Some l name j :
  index l name = Some j → (j < length l)%nat ∧ l !! j = Some name.
Proof.
  unfold index. destruct (list_find (λ x, x = name) l) as [[j' x]|] eqn:Hf; [|done].
  intros [= <-]. apply list_find_Some in Hf as (Hl & -> & _).
  split; [by eapply lookup_lt_Some|done].
Qed.

Lemma rows_below_extend_with n a b :
  rows_below n a → rows_below n b → rows_below n (extend_with a b).
Proof.
  unfold rows_below, all_entries, extend_with. simpl. rewrite !Forall_app.
  tauto.
Qed.

Lemma rows_below_type_pass df type_rules :
  well_formed df → rows_below (len df) (validate_data_types df type_rules).1.
Proof.
  intros [Hlen _]. rewrite Forall_forall in Hlen.
  assert (Hcell : ∀ col s i v, getitem df col = Some s → values s !! i = Some v →
                               (i < len df)%nat).
  { intros col s i v [Hs _]%getitem_Some Hv. rewrite <- (Hlen s Hs).
    by eapply lookup_lt_Some. }
  rewrite validate_data_types_findings. unfold rows_below, all_entries. simpl.
  rewrite !Forall_app, !Forall_forall. split; [|split].
  - intros e ([col ty] & _ & He)%elem_of_flat_map.
    apply elem_of_rule_errors in He
      as [[_ ->]|(s & i & v & Hs & Hv & _ & _ & ->)]; simpl; [done|].
    intros i' [= <-]. eauto.
  - intros e ([col ty] & _ & He)%elem_of_flat_map.
    by apply elem_of_rule_warnings in He as (s & _ & _ & ->).
  - intros e ([col ty] & _ & He)%elem_of_flat_map.
    apply elem_of_rule_passed in He as (s & i & v & Hs & Hv & _ & _ & ->).
    simpl. intros i' [= <-]. eauto.
Qed.

Section RowsBelow.
Context `{PyRuntime}.

Lemma rows_below_missing df :
  well_formed df → rows_below (len df) (detect_missing_values df).
Proof.
  intros [Hlen _]. rewrite Forall_forall in Hlen.
  destruct (empty df) eqn:Hne.
  { unfold detect_missing_values. rewrite Hne. unfold rows_below, all_entries.
    simpl. repeat constructor. done. }
  rewrite detect_missing_values_findings by done.
  unfold rows_below, all_entries. simpl. rewrite Forall_app, !Forall_forall.
  split.
  - intros e (s & Hs & He)%elem_of_flat_map. unfold compose in He. simpl in He.
    apply elem_of_app in He as [(i & -> & Hi)%elem_of_map|(i & -> & Hi)%elem_of_map];
      simpl; intros i' [= <-]; rewrite <- (Hlen s Hs).
    + apply elem_of_null_indices in Hi as (v & Hv & _). by eapply lookup_lt_Some.
    + apply elem_of_empty_indices in Hi as (_ & v & Hv & _).
      by eapply lookup_lt_Some.
  - intros e (s & _ & He)%elem_of_flat_map. unfold compose in He. simpl in He.
    destruct (0 <? valid_count df s); [|by apply elem_of_nil in He].
    by apply list_elem_of_singleton in He as ->.
Qed.

Lemma rows_below_frame path df rules :
  well_formed df → rows_below (len df) (validate_frame path df rules).1.
Proof.
  intros Hwf. destruct (empty df) eqn:Hne.
  { unfold validate_frame. rewrite Hne. unfold rows_below, all_entries. simpl.
    repeat constructor. done. }
  rewrite validate_frame_passes by done. simpl.
  repeat apply rows_below_extend_with.
  - unfold rows_below, all_entries. simpl. constructor.
  - unfold required_part. destruct (required_columns rules) as [req|].
    + unfold rows_below, all_entries, required_findings. simpl.
      rewrite Forall_app, !Forall_forall.
      split; by intros e (c & -> & _)%elem_of_map.
    + unfold rows_below, all_entries. simpl. constructor.
  - by apply rows_below_missing.
  - unfold type_part. destruct (data_types rules).
    + by apply rows_below_type_pass.
    + unfold rows_below, all_entries. simpl. constructor.
Qed.

End RowsBelow.

Lemma last_elem_of {A} (l : list A) (x : A) : last l = Some x → x ∈ l.
Proof.
  induction l as [|y l IH] using rev_ind; [done|].
  rewrite last_snoc. intros [= ->]. apply elem_of_app. right.
  apply elem_of_cons. by left.
Qed.

Lemma last_is_Some {A} (l : list A) (x : A) : x ∈ l → is_Some (last l).
Proof.
  destruct l as [|y l] using rev_ind; [by intros ?%elem_of_nil|].
  rewrite last_snoc. eauto.
Qed.

(** X10: colouring the sheet of the table that was validated never leaves
    the data: a cell whose fill changes lies in a data row (sheet rows 2 to
    the number of rows plus 1, the header row 1 is never coloured) and in a
    column of the table. *)
Theorem colouring_stays_in_the_data `{PyRuntime}
    (path : string) (df : DataFrame) (rules : RuleSet) (sheets : list string)
    (ws : gmap (nat * nat) PatternFill) (name : string) :
  well_formed df → name ∈ sheets →
  ∃ coloured,
    _apply_color_coding sheets (ReadFrame df) ws (validate_frame path df rules).1
      name = inr coloured
    ∧ ∀ x y, coloured !! (x, y) ≠ ws !! (x, y) →
             (2 <= x <= len df + 1 ∧ 1 <= y <= length (columns df))%nat.
Proof.
  intros Hwf Hin. unfold _apply_color_coding. rewrite bool_decide_true by done.
  rewrite cell_severity_of_frame by done. eexists. split; [done|].
  intros x y. rewrite apply_colors_lookup, cell_severity_frame_lookup.
  destruct (last (filter (λ e, cell_of df e = Some (x, y))
                         (all_entries (validate_frame path df rules).1)))
    as [e|] eqn:Hlast; simpl; [|done].
  intros _. apply last_elem_of, list_elem_of_filter in Hlast as [Hcell He].
  pose proof (rows_below_frame path df rules Hwf) as Hrows.
  unfold rows_below in Hrows. rewrite Forall_forall in Hrows.
  specialize (Hrows e He). unfold cell_of in Hcell.
  destruct (row e) as [i|]; simpl in Hcell; [|done].
  destruct (index (columns df) (column e)) as [j|] eqn:Hj; simpl in Hcell; [|done].
  injection Hcell as <- <-. apply index_Some in Hj as [Hj _].
  specialize (Hrows i eq_refl). lia.
Qed.

(** X11: a cell at which a passed entry of a run aims is painted with the
    fill of the passed entries, the solid light green CCFFCC of
    [self.colors], whatever errors or warnings aim at the same cell: the
    passed entries come last.  So a blank text in a column typed [str],
    reported as "Missing value (empty string)", ends up green. *)
Theorem passed_entry_paints_green `{PyRuntime}
    (fs : FileSystem) (path : string) (rules : RuleSet)
    (r : ValidationResult) (log : list string)
    (sheets : list string) (df : DataFrame) (ws : gmap (nat * nat) PatternFill)
    (name : string) (e : ValidationEntry) (cell : nat * nat) :
  validate_file fs path rules = Returned (r, log) →
  name ∈ sheets → e ∈ passed r → cell_of df e = Some cell →
  ∃ coloured,
    _apply_color_coding sheets (ReadFrame df) ws r name = inr coloured
    ∧ coloured !! cell = Some light_green.
Proof.
  unfold validate_file. destruct (load fs path) as [err|df0]; [done|].
  intros [= Hr] Hin He Hcell.
  pose proof (classified_frame path df0 rules) as [_ (_ & _ & Hp)].
  rewrite Hr in Hp. simpl in Hp. rewrite Forall_forall in Hp.
  unfold _apply_color_coding. rewrite bool_decide_true by done.
  rewrite cell_severity_of_frame by done. eexists. split; [done|].
  rewrite apply_colors_lookup, cell_severity_frame_lookup.
  unfold all_entries. rewrite !filter_app, !last_app.
  assert (Hsome : is_Some (last (filter (λ e0, cell_of df e0 = Some cell) (passed r)))).
  { apply (last_is_Some _ e). by apply list_elem_of_filter. }
  destruct Hsome as [e' He']. rewrite He'. simpl.
  apply last_elem_of, list_elem_of_filter in He' as [_ He'].
  destruct (Hp e' He') as [-> _]. reflexivity.
Qed.

(** The theorem on the scenario: the blank name of row 2 has an
    empty-string error and is painted green. *)
Lemma passed_entry_paints_green_witness :
  @validate_file example_runtime (files [("t.xlsx", scenario_table)]) "t.xlsx"
    scenario_rules
  = Returned (@validate_frame example_runtime "t.xlsx" scenario_table scenario_rules)
  ∧ error_entry "Missing value (empty string)" "name" (Some 2%nat) None
    ∈ errors (@validate_frame example_runtime "t.xlsx" scenario_table
                scenario_rules).1
  ∧ cell_of scenario_table (valid_value "name" "str" 2) = Some (4%nat, 2%nat)
  ∧ ∃ coloured,
      _apply_color_coding ["Validated_Data"] (ReadFrame scenario_table) ∅
        (@validate_frame example_runtime "t.xlsx" scenario_table scenario_rules).1
        "Validated_Data" = inr coloured
      ∧ coloured !! (4%nat, 2%nat) = Some light_green.
Proof.
  split; [reflexivity|]. split; [vm_compute; apply elem_of_cons; right;
                                 apply elem_of_cons; by left|].
  split; [reflexivity|].
  apply (@passed_entry_paints_green example_runtime
           (files [("t.xlsx", scenario_table)]) "t.xlsx" scenario_rules
           (@validate_frame example_runtime "t.xlsx" scenario_table scenario_rules).1
           (@validate_frame example_runtime "t.xlsx" scenario_table scenario_rules).2
           ["Validated_Data"] scenario_table ∅ "Validated_Data"
           (valid_value "name" "str" 2) (4%nat, 2%nat)).
  - reflexivity.
  - apply elem_of_cons. by left.
  - vm_compute. do 6 (apply elem_of_cons; right). apply elem_of_cons. by left.
  - reflexivity.
Defined.

(** The theorem on the scenario table. *)
Lemma colouring_stays_witness :
  well_formed scenario_table
  ∧ "Validated_Data" ∈ ["Validated_Data"]
  ∧ ∃ coloured,
      _apply_color_coding ["Validated_Data"] (ReadFrame scenario_table) ∅
        (@validate_frame example_runtime "t.xlsx" scenario_table scenario_rules).1
        "Validated_Data" = inr coloured
      ∧ ∀ x y, coloured !! (x, y) ≠ (∅ : gmap (nat * nat) PatternFill) !! (x, y) →
               (2 <= x <= len scenario_table + 1
                ∧ 1 <= y <= length (columns scenario_table))%nat.
Proof.
  assert (Hwf : well_formed scenario_table).
  { split; [repeat constructor|]. simpl.
    apply NoDup_cons. split; [|apply NoDup_singleton].
    by intros [=]%list_elem_of_singleton. }
  assert (Hin : "Validated_Data" ∈ ["Validated_Data"]) by (apply elem_of_cons; by left).
  split; [exact Hwf|]. split; [exact Hin|].
  exact (@colouring_stays_in_the_data example_runtime "t.xlsx" scenario_table
           scenario_rules ["Validated_Data"] ∅ "Validated_Data" Hwf Hin).
Defined.

(** ** Rendering after a run *)

Lemma cell_severity_of_no_raise sheets reread name r :
  (∀ e, reread ≠ ReadRaises e) →
  ∃ cs, cell_severity_of sheets reread name r = inr cs.
Proof.
  intros Hok. unfold cell_severity_of.
  generalize (∅ : gmap (nat * nat) string).
  induction (errors r ++ warnings r ++ passed r) as [|e l IH]; intros cs;
    [by eexists|].
  cbn [foldl]. unfold color_entry at 2.
  destruct (row e); [|apply IH].
  destruct (bool_decide (name ∈ sheets)); [|apply IH].
  destruct reread as [df| |err]; [| apply IH | by destruct (Hok err)].
  destruct (index (columns df) (column e)); apply IH.
Qed.

(** X12: rendering the result of a run of [validate_file], with the files
    as they were, loads the table that was validated.  When the writer
    cannot be opened on the output path, the call raises the writer's
    exception, and so it does when closing the writer raises, whatever
    happened before.  When the writer opens, writes the three sheets and
    closes without an exception, the call succeeds unless reading the source
    again while colouring raises an exception the loop does not catch: the
    workbook is written to the path given, its sheet [Validated_Data] is the
    table, [Summary] has a row per finding, and the lineage row gives the
    source path, the numbers of rows and columns of the table and the three
    totals of [get_summary]. *)
Theorem rendering_after_validation `{PyRuntime}
    (env : RenderEnv) (path : string) (rules : RuleSet)
    (r : ValidationResult) (log : list string) (output_path : string) :
  validate_file (render_fs env) path rules = Returned (r, log) →
  ∃ df,
    load (render_fs env) path = Returned df
    ∧ (∀ e, open_writer env output_path = Some e →
            generate_colored_output env r output_path = inl (WriterError e))
    ∧ (∀ e, open_writer env output_path = None →
            (∀ written, close_writer env output_path written = Some e) →
            generate_colored_output env r output_path = inl (WriterError e))
    ∧ ((∀ e, read_as_excel env path ≠ ReadRaises e) →
       open_writer env output_path = None →
       (∀ data sheet_name, to_excel env data sheet_name = None) →
       (∀ written, close_writer env output_path written = None) →
       ∃ wb,
         generate_colored_output env r output_path = inr (output_path, wb)
         ∧ Validated_Data wb = df
         ∧ length (Summary_sheet wb)
           = (total_issues (get_summary r) + total_passed (get_summary r))%nat
         ∧ Data_Lineage wb
           = [ {| lineage_source_file := path;
                  total_rows := len df;
                  total_columns := length (columns df);
                  validation_timestamp := timestamp_now env;
                  lineage_total_errors := total_errors (get_summary r);
                  lineage_total_warnings := total_warnings (get_summary r);
                  lineage_total_passed := total_passed (get_summary r) |} ]).
Proof.
  unfold validate_file. destruct (load (render_fs env) path) as [err|df] eqn:Hload;
    [done|].
  intros [= Hr].
  pose proof (classified_frame path df rules) as [Hsrc _].
  rewrite Hr in Hsrc. simpl in Hsrc.
  assert (Hread : (if endswith path ".xlsx"
                   then read_excel (render_fs env) path
                   else read_csv (render_fs env) path) = inr df).
  { unfold load in Hload. destruct (path_exists (render_fs env) path); [|done].
    simpl in Hload. destruct (endswith path ".xlsx").
    - destruct (read_excel (render_fs env) path); [done|]. by injection Hload as ->.
    - destruct (endswith path ".csv"); [|done].
      destruct (read_csv (render_fs env) path); [done|]. by injection Hload as ->. }
  exists df. split; [done|].
  unfold generate_colored_output. rewrite Hsrc, Hread.
  split; [by intros e ->|].
  split.
  { intros e -> Hclose.
    destruct (write_sheets env [] _) as [written failure]. by rewrite Hclose. }
  intros Hok -> Hwrite Hclose. simpl. rewrite !Hwrite. simpl. rewrite Hclose.
  destruct (cell_severity_of_no_raise
              ["Validated_Data"; "Summary"; "Data_Lineage"]
              (read_as_excel env path) "Validated_Data" r Hok) as [cs Hcs].
  unfold _apply_color_coding. rewrite Hcs. simpl.
  eexists. split; [reflexivity|]. simpl.
  split; [done|]. split.
  - rewrite summary_data_rows, length_map. unfold all_entries.
    rewrite !length_app. lia.
  - unfold lineage_data. by rewrite Hsrc.
Qed.

(** The theorem on the scenario table kept as a spreadsheet, with a writer
    that raises nothing. *)
Lemma rendering_after_validation_witness :
  @validate_file example_runtime (files [("t.xlsx", scenario_table)]) "t.xlsx"
    scenario_rules
  = Returned (@validate_frame example_runtime "t.xlsx" scenario_table scenario_rules)
  ∧ ∃ df wb,
      load (files [("t.xlsx", scenario_table)]) "t.xlsx" = Returned df
      ∧ generate_colored_output (quiet_writer [("t.xlsx", scenario_table)])
          (@validate_frame example_runtime "t.xlsx" scenario_table scenario_rules).1
          "out.xlsx" = inr ("out.xlsx", wb)
      ∧ Validated_Data wb = df.
Proof.
  split; [reflexivity|].
  destruct (@rendering_after_validation example_runtime
              (quiet_writer [("t.xlsx", scenario_table)])
              "t.xlsx" scenario_rules
              (@validate_frame example_runtime "t.xlsx" scenario_table
                 scenario_rules).1
              (@validate_frame example_runtime "t.xlsx" scenario_table
                 scenario_rules).2 "out.xlsx" eq_refl)
    as (df & Hload & _ & _ & Hrender).
  destruct (Hrender ltac:(intros e; discriminate) eq_refl
              ltac:(reflexivity) ltac:(reflexivity))
    as (wb & Hout & Hdata & _).
  exists df, wb. done.
Defined.

(** ** Integers are floats *)

Lemma digit_cases d :
  is_digit d = true →
  d ∈ ["0"; "1"; "2"; "3"; "4"; "5"; "6"; "7"; "8"; "9"]%char.
Proof.
  destruct d as [[] [] [] [] [] [] [] []]; intros Hd; try discriminate Hd;
    repeat (apply elem_of_cons; first [by left | right]).
Qed.

Lemma digit_not_underscore d : is_digit d = true → Ascii.eqb d "_" = false.
Proof.
  intros Hd. destruct (Ascii.eqb_spec d "_") as [->|]; [done|done].
Qed.

(** A text [int] reads, sign apart, loses its underscores in [float] and
    leaves digits only. *)
Lemma int_digits_drop_underscores r : ∀ acc b z prev,
  int_digits acc b r = Some z →
  (b = true → is_digit prev = true) →
  ∃ ds, drop_underscores prev r = Some ds
        ∧ Forall (λ c, is_digit c = true) ds
        ∧ (b = false → ds ≠ []).
Proof.
  induction r as [|c r IH]; intros acc b z prev Hz Hprev; simpl in *.
  - destruct b; [|done]. exists [].
    by rewrite (digit_not_underscore prev (Hprev eq_refl)).
  - destruct (is_digit c) eqn:Hc.
    + rewrite (digit_not_underscore c Hc), andb_false_r.
      destruct (IH _ _ _ c Hz (λ _, Hc)) as (ds & -> & Hds & _).
      exists (c :: ds). simpl. split; [done|]. split; [by constructor|done].
    + destruct (Ascii.eqb c "_") eqn:Hu; simpl in Hz; [|done].
      destruct b; [|done]. rewrite (Hprev eq_refl).
      destruct (IH _ _ _ c Hz ltac:(done)) as (ds & -> & Hds & _).
      exists ds. done.
Qed.

Lemma take_all_digits ds : ∀ acc n,
  Forall (λ c, is_digit c = true) ds →
  ∃ acc', take_digits acc n ds = (acc', n + Z.of_nat (length ds), []).
Proof.
  induction ds as [|d ds IH]; intros acc n Hds; simpl.
  - exists acc. f_equal. f_equal. lia.
  - apply Forall_cons in Hds as [Hd Hds]. rewrite Hd.
    destruct (IH (10 * acc + digit_val d) (n + 1) Hds) as [acc' ->].
    exists acc'. f_equal. f_equal. lia.
Qed.

Lemma float_unsigned_digits neg ds :
  Forall (λ c, is_digit c = true) ds → ds ≠ [] →
  is_Some (float_unsigned neg ds).
Proof.
  intros Hds Hne. destruct ds as [|d ds]; [done|].
  pose proof Hds as Hall. apply Forall_cons in Hds as [Hd _].
  unfold float_unsigned.
  assert (Hword : ∀ w, w ∈ ["inf"; "infinity"; "nan"] →
                       String.eqb (lower_string (d :: ds)) w = false).
  { intros w Hw. apply digit_cases in Hd.
    repeat (apply elem_of_cons in Hd as [->|Hd];
            [repeat (apply elem_of_cons in Hw as [->|Hw]; [reflexivity|]);
             by apply elem_of_nil in Hw|]).
    by apply elem_of_nil in Hd. }
  rewrite !Hword by (repeat (apply elem_of_cons; first [by left | right])).
  simpl. unfold float_number.
  destruct (take_all_digits (d :: ds) 0 0 Hall) as [ip ->].
  simpl. replace (0 <? 0 + Z.pos (Pos.of_succ_nat (length ds)) + 0) with true
    by (symmetry; apply Z.ltb_lt; lia).
  by eexists.
Qed.

Lemma py_int_chars_float l z :
  py_int_chars l = Some z → is_Some (py_float_chars l).
Proof.
  intros Hz. unfold py_float_chars.
  assert (Hsigned : ∀ sign r z',
            sign = "+"%char ∨ sign = "-"%char →
            int_digits 0 false r = Some z' →
            is_Some (drop_underscores "000" (sign :: r)
                     ≫= λ l', match l' with
                              | "+"%char :: r' => float_unsigned false r'
                              | "-"%char :: r' => float_unsigned true r'
                              | _ => float_unsigned false l'
                              end)).
  { intros sign r z' Hsign Hr.
    destruct (int_digits_drop_underscores r 0 false z' sign Hr ltac:(done))
      as (ds & Hds & Hall & Hne).
    destruct Hsign as [-> | ->]; simpl; rewrite Hds; simpl;
      apply float_unsigned_digits; auto. }
  destruct l as [|c r]; [done|].
  destruct (decide (c = "+"%char)) as [->|Hplus]; [by eapply Hsigned; eauto|].
  destruct (decide (c = "-"%char)) as [->|Hminus].
  { simpl in Hz. destruct (int_digits 0 false r) as [z'|] eqn:Hr; [|done].
    eapply Hsigned; eauto. }
  assert (Hz' : int_digits 0 false (c :: r) = Some z).
  { revert Hz. destruct c as [[] [] [] [] [] [] [] []]; try done. }
  destruct (int_digits_drop_underscores (c :: r) 0 false z "000" Hz' ltac:(done))
    as (ds & -> & Hall & Hne).
  simpl. destruct ds as [|d ds]; [by destruct Hne|].
  pose proof Hall as Hd. apply Forall_cons in Hd as [Hd _].
  assert (Hfall : match d :: ds with
                  | "+"%char :: r' => float_unsigned false r'
                  | "-"%char :: r' => float_unsigned true r'
                  | _ => float_unsigned false (d :: ds)
                  end = float_unsigned false (d :: ds)).
  { apply digit_cases in Hd.
    repeat (apply elem_of_cons in Hd as [->|Hd]; [reflexivity|]).
    by apply elem_of_nil in Hd. }
  rewrite Hfall. by apply float_unsigned_digits.
Qed.

(** X13: the tag [int] is stricter than the tag [float]: every value the
    type predicate accepts as [int] it accepts as [float] (a text that
    [int] reads, [float] reads too: both skip the same white space, and
    digits with single underscores between them are a numeral for both), so
    a column that passes as [int] passes as [float]. *)
Theorem int_values_pass_float (v : PyValue) :
  (_check_data_type v "int").1 = true → (_check_data_type v "float").1 = true.
Proof.
  destruct v; try done.
  - unfold _check_data_type. simpl.
    destruct (py_int s) as [z|] eqn:Hs; simpl; [|done]. intros _.
    unfold py_int in Hs. destruct (_ <? _)%nat; [done|].
    destruct (py_int_chars_float _ _ Hs) as [lit Hlit].
    unfold py_float. by rewrite Hlit.
  - unfold _check_data_type. simpl. by rewrite !orb_true_r.
Qed.

(** The theorem on the text " +1_000 ". *)
Lemma int_values_pass_float_witness :
  (_check_data_type (PyStr " +1_000 ") "int").1 = true
  ∧ (_check_data_type (PyStr " +1_000 ") "float").1 = true.
Proof.
  split; [reflexivity|].
  apply (int_values_pass_float (PyStr " +1_000 ")). reflexivity.
Defined.

(** ** Commands *)

Lemma list_ascii_of_string_app (a b : string) :
  list_ascii_of_string (a +:+ b) = list_ascii_of_string a ++ list_ascii_of_string b.
Proof. induction a as [|c a IH]; simpl; [done|]. by rewrite IH. Qed.

Lemma split_first_found sep (a b : list ascii) :
  sep ∉ a → split_first sep (a ++ sep :: b) = (a, Some b).
Proof.
  induction a as [|c a IH]; intros Ha; simpl.
  - by rewrite Ascii.eqb_refl.
  - apply not_elem_of_cons in Ha as [Hc Ha].
    destruct (Ascii.eqb_spec c sep) as [->|_]; [done|]. by rewrite IH.
Qed.

Lemma split_first_absent sep (a : list ascii) :
  sep ∉ a → split_first sep a = (a, None).
Proof.
  induction a as [|c a IH]; intros Ha; simpl; [done|].
  apply not_elem_of_cons in Ha as [Hc Ha].
  destruct (Ascii.eqb_spec c sep) as [->|_]; [done|]. by rewrite IH.
Qed.

Lemma prefix_empty (s : string) : String.prefix "" s = true.
Proof. by destruct s. Qed.

Section Commands.
Variable Args : Type.
Variable empty_args : Args.
Variable _parse_validate_command : string → outcome Args.
Variable _parse_help_command : string → outcome Args.

Local Abbreviation parse :=
  (parse_command Args empty_args _parse_validate_command _parse_help_command).
Local Abbreviation command_table :=
  (commands Args empty_args _parse_validate_command _parse_help_command).

Lemma parse_word_and_arguments (word args : string) :
  " "%char ∉ list_ascii_of_string word →
  parse (String "/" (word +:+ String " " args))
  = match command_table !! lower_word word with
    | None => Raised (ValueError ("Unknown command: " +:+ lower_word word))
    | Some parser => tagged (lower_word word) (parser args)
    end.
Proof.
  intros Hword. unfold parse_command, lower_word. simpl.
  rewrite list_ascii_of_string_app. simpl.
  rewrite split_first_found by done. simpl.
  rewrite prefix_empty. simpl.
  destruct (command_table !! lower_string (list_ascii_of_string word)); [|done].
  by rewrite string_of_list_ascii_of_string.
Qed.

Lemma parse_word_alone (word : string) :
  " "%char ∉ list_ascii_of_string word →
  parse (String "/" word)
  = match command_table !! lower_word word with
    | None => Raised (ValueError ("Unknown command: " +:+ lower_word word))
    | Some parser => tagged (lower_word word) (parser "")
    end.
Proof.
  intros Hword. unfold parse_command, lower_word. simpl.
  rewrite split_first_absent by done. simpl.
  rewrite prefix_empty. simpl.
  by destruct (command_table !! lower_string (list_ascii_of_string word)).
Qed.

Lemma command_table_lookup (c : string) :
  command_table !! c
  = if String.eqb c "validate" then Some _parse_validate_command
    else if String.eqb c "help" then Some _parse_help_command
    else if String.eqb c "clear"
         then Some (_parse_clear_command Args empty_args)
    else if String.eqb c "status"
         then Some (_parse_status_command Args empty_args)
    else None.
Proof.
  unfold commands.
  destruct (String.eqb_spec c "validate") as [->|Hv]; [done|].
  destruct (String.eqb_spec c "help") as [->|Hh]; [done|].
  destruct (String.eqb_spec c "clear") as [->|Hc]; [done|].
  destruct (String.eqb_spec c "status") as [->|Hs]; [done|].
  rewrite !lookup_insert_ne by done. apply lookup_singleton_ne. done.
Qed.

(** X14: the command word is matched without regard to case and the text
    after the first blank goes to the command's parser as it is: for a word
    that reads [validate] or [help] in lower case, [parse_command] returns
    the lower-case name with what that parser returns on the argument text
    (the empty text when nothing follows the word), and raises what it
    raises; for [clear] and [status] it returns the name with the empty
    arguments whatever follows. *)
Theorem command_word_and_arguments (word args : string) :
  " "%char ∉ list_ascii_of_string word →
  (lower_word word = "validate" →
   parse (String "/" (word +:+ String " " args))
   = tagged "validate" (_parse_validate_command args)
   ∧ parse (String "/" word) = tagged "validate" (_parse_validate_command ""))
  ∧ (lower_word word = "help" →
     parse (String "/" (word +:+ String " " args))
     = tagged "help" (_parse_help_command args)
     ∧ parse (String "/" word) = tagged "help" (_parse_help_command ""))
  ∧ (lower_word word = "clear" →
     parse (String "/" (word +:+ String " " args)) = Returned ("clear", empty_args)
     ∧ parse (String "/" word) = Returned ("clear", empty_args))
  ∧ (lower_word word = "status" →
     parse (String "/" (word +:+ String " " args)) = Returned ("status", empty_args)
     ∧ parse (String "/" word) = Returned ("status", empty_args)).
Proof.
  intros Hword.
  rewrite parse_word_and_arguments, parse_word_alone by done.
  rewrite command_table_lookup.
  split; [|split; [|split]]; intros ->; split; reflexivity.
Qed.

(** X15: [parse_command] raises [ValueError] "Commands must start with '/'"
    on every text that does not begin with a slash (the empty text
    included), and "Unknown command: <word in lower case>" when the word
    between the slash and the first blank is none of [validate], [help],
    [clear], [status] in any case; so a blank right after the slash gives
    the empty word, and whatever it returns carries one of the four names. *)
Theorem command_rejections (command_str : string) :
  (String.prefix "/" command_str = false →
   parse command_str = Raised (ValueError "Commands must start with '/'"))
  ∧ (∀ word args,
       " "%char ∉ list_ascii_of_string word →
       lower_word word ∉ ["validate"; "help"; "clear"; "status"] →
       parse (String "/" (word +:+ String " " args))
       = Raised (ValueError ("Unknown command: " +:+ lower_word word))
       ∧ parse (String "/" word)
         = Raised (ValueError ("Unknown command: " +:+ lower_word word)))
  ∧ (∀ args, parse (String "/" (String " " args))
             = Raised (ValueError "Unknown command: "))
  ∧ (∀ command parsed,
       parse command_str = Returned (command, parsed) →
       command ∈ ["validate"; "help"; "clear"; "status"]
       ∧ String.prefix "/" command_str = true).
Proof.
  split; [|split; [|split]].
  - intros Hno. unfold parse_command. by rewrite Hno.
  - intros word args Hword Hnone.
    rewrite parse_word_and_arguments, parse_word_alone by done.
    rewrite command_table_lookup.
    destruct (String.eqb_spec (lower_word word) "validate") as [Heq|_].
    { destruct Hnone. rewrite Heq. repeat (apply elem_of_cons; first [by left | right]). }
    destruct (String.eqb_spec (lower_word word) "help") as [Heq|_].
    { destruct Hnone. rewrite Heq. repeat (apply elem_of_cons; first [by left | right]). }
    destruct (String.eqb_spec (lower_word word) "clear") as [Heq|_].
    { destruct Hnone. rewrite Heq. repeat (apply elem_of_cons; first [by left | right]). }
    destruct (String.eqb_spec (lower_word word) "status") as [Heq|_].
    { destruct Hnone. rewrite Heq. repeat (apply elem_of_cons; first [by left | right]). }
    done.
  - intros args.
    etrans; [exact (parse_word_and_arguments "" args (not_elem_of_nil _))|].
    reflexivity.
  - intros command parsed. unfold parse_command.
    destruct (String.prefix "/" command_str); simpl; [|done].
    rewrite command_table_lookup.
    set (c := lower_string (split_first " " (tail (list_ascii_of_string command_str))).1).
    destruct (String.eqb_spec c "validate") as [Heq|_].
    { destruct (_parse_validate_command _); [done|]. intros [= <- _].
      rewrite Heq. split; [|done]. repeat (apply elem_of_cons; first [by left | right]). }
    destruct (String.eqb_spec c "help") as [Heq|_].
    { destruct (_parse_help_command _); [done|]. intros [= <- _].
      rewrite Heq. split; [|done]. repeat (apply elem_of_cons; first [by left | right]). }
    destruct (String.eqb_spec c "clear") as [Heq|_].
    { intros [= <- _].
      rewrite Heq. split; [|done]. repeat (apply elem_of_cons; first [by left | right]). }
    destruct (String.eqb_spec c "status") as [Heq|_].
    { intros [= <- _].
      rewrite Heq. split; [|done]. repeat (apply elem_of_cons; first [by left | right]). }
    done.
Qed.

End Commands.

(** The theorem on [/CLEAR now], with texts as argument dicts. *)
Lemma command_word_witness :
  (" "%char ∉ list_ascii_of_string "CLEAR")
  ∧ lower_word "CLEAR" = "clear"
  ∧ parse_command string "" (λ a, Returned a) (λ a, Returned a) "/CLEAR now"
    = Returned ("clear", "").
Proof.
  assert (Hword : " "%char ∉ list_ascii_of_string "CLEAR").
  { intros Hin. repeat (apply elem_of_cons in Hin as [Hin|Hin]; [done|]).
    by apply elem_of_nil in Hin. }
  split; [exact Hword|]. split; [reflexivity|].
  apply (command_word_and_arguments string "" (λ a, Returned a) (λ a, Returned a)
           "CLEAR" "now" Hword).
  reflexivity.
Defined.
